(** * Quantum-Algorithm-Simulator: the /run dispatcher and its backend adapters

    A shallow embedding of [backend/app.py] (the credential resolver, the
    backend registry and the [/run] handler with its simulator fallback) and of
    the gate translation and result shaping of the adapters
    [aer_backend.py], [cirq_backend.py], [ibm_backend.py], [ionq_backend.py],
    [rigetti_backend.py], [pennylane_backend.py] and [quantinuum_backend.py].

    Python dictionaries are finite maps from strings; the dictionaries that are
    shared by reference (the credential bundles kept in
    [_in_memory_credentials_store]) live in an explicit heap.  Calls into the
    quantum SDKs and into the process environment are answered by an explicit
    [world]; whatever they return is carried as opaque data. *)

From Stdlib Require Import ZArith String Ascii List Bool.
From stdpp Require Import base gmap strings list fin_maps pretty.
Import ListNotations.
Local Open Scope string_scope.
Local Open Scope Z_scope.

(** ** Python values and strings *)

Module Py.

(** The values that travel through the handler.  [PData] is an object made by
    an SDK or by float arithmetic on SDK output (a histogram of counts, a list
    of amplitudes, a table of probabilities): only the way it prints is
    kept. *)
Inductive pyval : Type :=
  | PNone
  | PBool (b : bool)
  | PInt (z : Z)
  | PStr (s : string)
  | PData (printed : string).

#[export] Instance pyval_eq_dec : EqDecision pyval.
Proof. solve_decision. Defined.

(** [str(v)], as an f-string renders a value. *)
Definition py_str (v : pyval) : string :=
  match v with
  | PNone => "None"
  | PBool true => "True"
  | PBool false => "False"
  | PInt z => pretty z
  | PStr s => s
  | PData p => p
  end.

(** Truthiness, as [if v:], [not v] and [a and b] test it. *)
Definition truthy (v : pyval) : bool :=
  match v with
  | PNone => false
  | PBool b => b
  | PInt z => negb (z =? 0)
  | PStr s => negb (String.eqb s "")
  | PData _ => true
  end.

(** [isinstance(v, int)]: Python's [bool] is a subclass of [int]. *)
Definition is_int (v : pyval) : bool :=
  match v with
  | PInt _ | PBool _ => true
  | _ => false
  end.

(** [str.lower()] on the ASCII range. *)
Definition lower_ascii (c : ascii) : ascii :=
  let n := nat_of_ascii c in
  if (Nat.leb 65 n && Nat.leb n 90)%bool then ascii_of_nat (n + 32) else c.

Fixpoint lower (s : string) : string :=
  match s with
  | EmptyString => EmptyString
  | String c r => String (lower_ascii c) (lower r)
  end.

(** [str.startswith]. *)
Fixpoint startswith (p s : string) : bool :=
  match p, s with
  | EmptyString, _ => true
  | String a p', String b s' => (Ascii.eqb a b && startswith p' s')%bool
  | String _ _, EmptyString => false
  end.

(** [needle in haystack] on strings. *)
Fixpoint contains (needle s : string) : bool :=
  (startswith needle s ||
   match s with
   | EmptyString => false
   | String _ r => contains needle r
   end)%bool.

(** A dictionary with string keys. *)
Abbreviation dict := (gmap string pyval).

(** [d.get(k)] is [None] for a missing key. *)
Definition dget (d : dict) (k : string) : pyval := default PNone (d !! k).

(** [d.get(k, dflt)]. *)
Definition dget_or (d : dict) (k : string) (dflt : pyval) : pyval :=
  default dflt (d !! k).

(** [k in d]. *)
Definition has_key (d : dict) (k : string) : bool := bool_decide (is_Some (d !! k)).

(** The exceptions the embedded code raises or meets. *)
Inductive pyexn : Type :=
  | ValueError (msg : string)
  | KeyError (key : string)
  | IndexError (msg : string)
  | TypeError (msg : string)
  | ImportError (msg : string)
  | RuntimeError (msg : string)
  | OtherError (cls msg : string).

(** [str(e)]: the message, and for a [KeyError] the [repr] of the key. *)
Definition exn_str (e : pyexn) : string :=
  match e with
  | ValueError m | IndexError m | TypeError m | ImportError m
  | RuntimeError m | OtherError _ m => m
  | KeyError k => "'" ++ k ++ "'"
  end.

(** Would [except ValueError] catch it? *)
Definition is_ValueError (e : pyexn) : bool :=
  match e with ValueError _ => true | _ => false end.

Definition is_ImportError (e : pyexn) : bool :=
  match e with ImportError _ => true | _ => false end.

(** The outcome of a call: a value, or a raised exception. *)
Inductive res (A : Type) : Type :=
  | Ret (a : A)
  | Raise (e : pyexn).
Arguments Ret {A} a.
Arguments Raise {A} e.

Definition bind {A B} (m : res A) (k : A -> res B) : res B :=
  match m with
  | Ret a => k a
  | Raise e => Raise e
  end.

#[export] Instance res_ret : MRet res := @Ret.
#[export] Instance res_bind : MBind res := fun A B k m => bind m k.

End Py.
Import Py.

(** ** The circuit description sent by the front end *)

(** One entry of ["gates"].  A field is [None] when the key is missing from the
    JSON object; a present key holds any JSON scalar, [PNone] for [null]. *)
Module G.

Record gate_info : Type := GateInfo {
  gate : string;
  target : option pyval;
  control : option pyval;
  controls : option (list pyval);
  control1 : option pyval;
  control2 : option pyval;
  classical_bit : option pyval;
  params : option dict
}.

Record circuit_data : Type := CircuitData {
  qubits : Z;
  gates : list gate_info
}.

End G.

Abbreviation gate_info := G.gate_info.
Abbreviation circuit_data := G.circuit_data.

(** [gate_info.get(k)] *)
Definition get (f : option pyval) : pyval := default PNone f.

(** [gate_info[k]] *)
Definition item (k : string) (f : option pyval) : res pyval :=
  match f with
  | Some v => Ret v
  | None => Raise (KeyError k)
  end.

(** [gate_info.get("params", {})] *)
Definition params_or_empty (g : gate_info) : dict := default ∅ (G.params g).

(** [gate_info["params"]["theta"]] *)
Definition params_item (g : gate_info) (k : string) : res pyval :=
  match G.params g with
  | None => Raise (KeyError "params")
  | Some p =>
      match p !! k with
      | Some v => Ret v
      | None => Raise (KeyError k)
      end
  end.

(** A call made on an SDK circuit object while translating: the method (or
    gate constructor) and its arguments, in the order of the source.  The SDK's
    own reaction to the arguments is not part of this repository. *)
Inductive sdk_call : Type :=
  | Call (method : string) (args : list pyval).

(** [xs[i]] on a Python list of length [n]: the position read, counting from
    the front.  A negative index counts from the end. *)
Definition list_index (n : Z) (i : pyval) : res Z :=
  let at_ (z : Z) :=
    if (0 <=? z) && (z <? n) then Ret z
    else if (- n <=? z) && (z <? 0) then Ret (n + z)
    else Raise (IndexError "list index out of range") in
  match i with
  | PInt z => at_ z
  | PBool b => at_ (if b then 1 else 0)
  | PNone => Raise (TypeError "list indices must be integers or slices, not NoneType")
  | PStr _ => Raise (TypeError "list indices must be integers or slices, not str")
  | PData _ => Raise (TypeError "list indices must be integers or slices, not float")
  end.

(** Run a loop body over the gates, in order, stopping at the first raise. *)
Fixpoint for_each {A S : Type} (body : S -> A -> res S) (st : S) (xs : list A) : res S :=
  match xs with
  | [] => Ret st
  | x :: rest =>
      match body st x with
      | Ret st' => for_each body st' rest
      | Raise e => Raise e
      end
  end.

(** ** aer_backend.py *)

Module Aer.

(** The loop body of [_build_qiskit_circuit_aer]: the calls so far and
    [has_explicit_measurements]. *)
Definition build_step (st : list sdk_call * bool) (gate_info : gate_info)
  : res (list sdk_call * bool) :=
  let '(circuit, has_explicit_measurements) := st in
  let gate_type := lower (G.gate gate_info) in
  let target := get (G.target gate_info) in
  let control := get (G.control gate_info) in
  let params := params_or_empty gate_info in
  let emit c := Ret ((circuit ++ [c])%list, has_explicit_measurements) in
  if negb (bool_decide (target = PNone)) && negb (is_int target) then
    Raise (ValueError ("Invalid target for " ++ gate_type ++ " gate: "
                       ++ py_str target ++ ". Must be an integer."))
  else if negb (bool_decide (control = PNone)) && negb (is_int control) then
    Raise (ValueError ("Invalid control for " ++ gate_type ++ " gate: "
                       ++ py_str control ++ ". Must be an integer."))
  else if String.eqb gate_type "h" then emit (Call "h" [target])
  else if String.eqb gate_type "x" then emit (Call "x" [target])
  else if String.eqb gate_type "y" then emit (Call "y" [target])
  else if String.eqb gate_type "z" then emit (Call "z" [target])
  else if String.eqb gate_type "s" then emit (Call "s" [target])
  else if String.eqb gate_type "sdg" then emit (Call "sdg" [target])
  else if String.eqb gate_type "t" then emit (Call "t" [target])
  else if String.eqb gate_type "tdg" then emit (Call "tdg" [target])
  else if String.eqb gate_type "rx" then
    emit (Call "rx" [dget_or params "theta" (PInt 0); target])
  else if String.eqb gate_type "ry" then
    emit (Call "ry" [dget_or params "theta" (PInt 0); target])
  else if String.eqb gate_type "rz" then
    emit (Call "rz" [dget_or params "theta" (PInt 0); target])
  else if String.eqb gate_type "p" then
    emit (Call "p" [dget_or params "theta" (PInt 0); target])
  else if String.eqb gate_type "u" then
    emit (Call "u" [dget_or params "theta" (PInt 0); dget_or params "phi" (PInt 0);
                    dget_or params "lambda" (PInt 0); target])
  else if String.eqb gate_type "cx" then emit (Call "cx" [control; target])
  else if String.eqb gate_type "cy" then emit (Call "cy" [control; target])
  else if String.eqb gate_type "cz" then emit (Call "cz" [control; target])
  else if String.eqb gate_type "swap" then emit (Call "swap" [control; target])
  else if String.eqb gate_type "crx" then
    emit (Call "crx" [dget_or params "theta" (PInt 0); control; target])
  else if String.eqb gate_type "cry" then
    emit (Call "cry" [dget_or params "theta" (PInt 0); control; target])
  else if String.eqb gate_type "crz" then
    emit (Call "crz" [dget_or params "theta" (PInt 0); control; target])
  else if String.eqb gate_type "cu" then
    emit (Call "cu" [dget_or params "theta" (PInt 0); dget_or params "phi" (PInt 0);
                     dget_or params "lambda" (PInt 0); dget_or params "gamma" (PInt 0);
                     control; target])
  else if String.eqb gate_type "ccx" then
    let control1 := get (G.control1 gate_info) in
    let control2 := get (G.control2 gate_info) in
    if bool_decide (control1 = PNone) || bool_decide (control2 = PNone) then
      Raise (ValueError ("Both control1 and control2 must be specified for "
                         ++ gate_type ++ " gate."))
    else emit (Call "ccx" [control1; control2; target])
  else if String.eqb gate_type "measure" then
    let classical_bit := default target (G.classical_bit gate_info) in
    let classical_bit := if bool_decide (classical_bit = PNone) then target else classical_bit in
    Ret ((circuit ++ [Call "measure" [target; classical_bit]])%list, true)
  else
    (* print(f"Warning: Unknown gate type {gate_type}. Skipping.") *)
    Ret (circuit, has_explicit_measurements).

Definition _build_qiskit_circuit_aer (circuit_data : circuit_data)
  : res (list sdk_call * bool) :=
  for_each build_step ([], false) (G.gates circuit_data).

End Aer.

(** ** cirq_backend.py *)

Module Cirq.

(** [qubits[i]] for [qubits = cirq.LineQubit.range(num_qubits)]: the line
    qubit found, named by its position. *)
Definition qubit_at (num_qubits : Z) (i : pyval) : res pyval :=
  x ← list_index (Z.max 0 num_qubits) i; Ret (PInt x).

(** The loop body of [_build_cirq_circuit]. *)
Definition build_step (num_qubits : Z) (circuit : list sdk_call) (gate_info : gate_info)
  : res (list sdk_call) :=
  let gate_type := lower (G.gate gate_info) in
  let emit c := Ret (circuit ++ [c])%list in
  i ← item "target" (G.target gate_info);
  target ← qubit_at num_qubits i;
  if String.eqb gate_type "h" then emit (Call "H" [target])
  else if String.eqb gate_type "x" then emit (Call "X" [target])
  else if String.eqb gate_type "y" then emit (Call "Y" [target])
  else if String.eqb gate_type "z" then emit (Call "Z" [target])
  else if String.eqb gate_type "s" then emit (Call "S" [target])
  else if String.eqb gate_type "sdg" then emit (Call "S**-1" [target])
  else if String.eqb gate_type "t" then emit (Call "T" [target])
  else if String.eqb gate_type "tdg" then emit (Call "T**-1" [target])
  else if String.eqb gate_type "rx" then
    theta ← params_item gate_info "theta"; emit (Call "rx" [theta; target])
  else if String.eqb gate_type "ry" then
    theta ← params_item gate_info "theta"; emit (Call "ry" [theta; target])
  else if String.eqb gate_type "rz" then
    theta ← params_item gate_info "theta"; emit (Call "rz" [theta; target])
  else if String.eqb gate_type "cx" then
    c ← item "control" (G.control gate_info);
    control ← qubit_at num_qubits c;
    emit (Call "CNOT" [control; target])
  else if String.eqb gate_type "ccx" then
    match G.controls gate_info with
    | None => Raise (KeyError "controls")
    | Some cs =>
        controls ← for_each (fun acc c => q ← qubit_at num_qubits c; Ret (acc ++ [q])%list) [] cs;
        match controls with
        | [c0; c1] => emit (Call "CCNOT" [c0; c1; target])
        | _ => Raise (ValueError ("CCX gate requires exactly 2 control qubits, got "
                                  ++ pretty (length controls)))
        end
    end
  else if String.eqb gate_type "swap" then
    q1 ← qubit_at num_qubits i;
    c ← item "control" (G.control gate_info);
    q2 ← qubit_at num_qubits c;
    emit (Call "SWAP" [q1; q2])
  else if String.eqb gate_type "measure" then
    emit (Call "measure" [target; PStr ("q" ++ py_str i)])
  else
    Raise (ValueError ("Unsupported gate type for Cirq: " ++ gate_type)).

Definition _build_cirq_circuit (circuit_data : circuit_data) : res (list sdk_call) :=
  for_each (build_step (G.qubits circuit_data)) [] (G.gates circuit_data).

End Cirq.

(** [controls and len(controls) == 2] on [gate_info.get("controls")]. *)
Definition two_controls (cs : option (list pyval)) : option (pyval * pyval) :=
  match cs with
  | Some [c0; c1] => Some (c0, c1)
  | _ => None
  end.

(** ** ionq_backend.py and rigetti_backend.py (Amazon Braket circuits) *)

Module Braket.

(** The loop body shared, line for line, by [_build_braket_circuit] and
    [_build_braket_circuit_rigetti]; [who] is the name in the last message. *)
Definition build_step (who : string) (circuit : list sdk_call) (gate_info : gate_info)
  : res (list sdk_call) :=
  let gate_type := lower (G.gate gate_info) in
  let emit c := Ret (circuit ++ [c])%list in
  target ← item "target" (G.target gate_info);
  let control := get (G.control gate_info) in
  let controls := G.controls gate_info in
  let params := params_or_empty gate_info in
  if String.eqb gate_type "h" then emit (Call "h" [target])
  else if String.eqb gate_type "x" then emit (Call "x" [target])
  else if String.eqb gate_type "y" then emit (Call "y" [target])
  else if String.eqb gate_type "z" then emit (Call "z" [target])
  else if String.eqb gate_type "s" then emit (Call "s" [target])
  else if String.eqb gate_type "sdg" then emit (Call "sdg" [target])
  else if String.eqb gate_type "t" then emit (Call "t" [target])
  else if String.eqb gate_type "tdg" then emit (Call "tdg" [target])
  else if String.eqb gate_type "rx" then
    emit (Call "rx" [target; dget_or params "theta" (PInt 0)])
  else if String.eqb gate_type "ry" then
    emit (Call "ry" [target; dget_or params "theta" (PInt 0)])
  else if String.eqb gate_type "rz" then
    emit (Call "rz" [target; dget_or params "theta" (PInt 0)])
  else if String.eqb gate_type "cx" then emit (Call "cnot" [control; target])
  else if String.eqb gate_type "ccx" then
    match two_controls controls with
    | Some (c0, c1) => emit (Call "ccnot" [c0; c1; target])
    | None => Raise (ValueError "CCX gate requires exactly 2 control qubits.")
    end
  else if String.eqb gate_type "swap" then emit (Call "swap" [target; control])
  else if String.eqb gate_type "measure" then Ret circuit
  else
    Raise (ValueError ("Unsupported gate type for " ++ who ++ " (Braket): " ++ gate_type)).

Definition _build_braket_circuit (circuit_data : circuit_data) : res (list sdk_call) :=
  for_each (build_step "IonQ") [] (G.gates circuit_data).

Definition _build_braket_circuit_rigetti (circuit_data : circuit_data) : res (list sdk_call) :=
  for_each (build_step "Rigetti") [] (G.gates circuit_data).

End Braket.

(** ** ibm_backend.py: the gate loop of [run_ibm] *)

Module Ibm.

(** The calls so far and [circuit.num_clbits]. *)
Definition build_step (num_qubits : Z) (st : list sdk_call * Z) (gate_info : gate_info)
  : res (list sdk_call * Z) :=
  let '(circuit, num_clbits) := st in
  let gate_type := lower (G.gate gate_info) in
  let emit c := Ret ((circuit ++ [c])%list, num_clbits) in
  let target := get (G.target gate_info) in
  let control := get (G.control gate_info) in
  let controls := G.controls gate_info in
  let params := params_or_empty gate_info in
  if String.eqb gate_type "h" then emit (Call "h" [target])
  else if String.eqb gate_type "x" then emit (Call "x" [target])
  else if String.eqb gate_type "y" then emit (Call "y" [target])
  else if String.eqb gate_type "z" then emit (Call "z" [target])
  else if String.eqb gate_type "s" then emit (Call "s" [target])
  else if String.eqb gate_type "sdg" then emit (Call "sdg" [target])
  else if String.eqb gate_type "t" then emit (Call "t" [target])
  else if String.eqb gate_type "tdg" then emit (Call "tdg" [target])
  else if String.eqb gate_type "rx" then
    emit (Call "rx" [dget_or params "theta" (PInt 0); target])
  else if String.eqb gate_type "ry" then
    emit (Call "ry" [dget_or params "theta" (PInt 0); target])
  else if String.eqb gate_type "rz" then
    emit (Call "rz" [dget_or params "theta" (PInt 0); target])
  else if String.eqb gate_type "cx" then emit (Call "cx" [control; target])
  else if String.eqb gate_type "ccx" then
    match two_controls controls with
    | Some (c0, c1) => emit (Call "ccx" [c0; c1; target])
    | None => Raise (ValueError "CCX gate requires exactly 2 control qubits.")
    end
  else if String.eqb gate_type "swap" then emit (Call "swap" [target; control])
  else if String.eqb gate_type "measure" then
    if num_clbits <? num_qubits then
      Ret ((circuit ++ [Call "add_register" [PInt (num_qubits - num_clbits)];
                        Call "measure" [target; target]])%list, num_qubits)
    else
      Ret ((circuit ++ [Call "measure" [target; target]])%list, num_clbits)
  else
    (* print(f"Warning: Unknown gate type {gate_type} for IBM. Skipping.") *)
    Ret (circuit, num_clbits).

Definition build_circuit (circuit_data : circuit_data) : res (list sdk_call * Z) :=
  for_each (build_step (G.qubits circuit_data)) ([], 0) (G.gates circuit_data).

End Ibm.

(** ** pennylane_backend.py: the body of [quantum_program] *)

Module Pennylane.

Definition build_step (circuit : list sdk_call) (gate_info : gate_info)
  : res (list sdk_call) :=
  let gate_type := lower (G.gate gate_info) in
  let emit c := Ret (circuit ++ [c])%list in
  target_qubit ← item "target" (G.target gate_info);
  let control_qubit := get (G.control gate_info) in
  let controls := G.controls gate_info in
  let params := params_or_empty gate_info in
  if String.eqb gate_type "h" then emit (Call "Hadamard" [target_qubit])
  else if String.eqb gate_type "x" then emit (Call "PauliX" [target_qubit])
  else if String.eqb gate_type "y" then emit (Call "PauliY" [target_qubit])
  else if String.eqb gate_type "z" then emit (Call "PauliZ" [target_qubit])
  else if String.eqb gate_type "s" then emit (Call "S" [target_qubit])
  else if String.eqb gate_type "sdg" then emit (Call "Adjoint(S)" [target_qubit])
  else if String.eqb gate_type "t" then emit (Call "T" [target_qubit])
  else if String.eqb gate_type "tdg" then emit (Call "Adjoint(T)" [target_qubit])
  else if String.eqb gate_type "rx" then
    emit (Call "RX" [dget_or params "theta" (PInt 0); target_qubit])
  else if String.eqb gate_type "ry" then
    emit (Call "RY" [dget_or params "theta" (PInt 0); target_qubit])
  else if String.eqb gate_type "rz" then
    emit (Call "RZ" [dget_or params "theta" (PInt 0); target_qubit])
  else if String.eqb gate_type "cx" then emit (Call "CNOT" [control_qubit; target_qubit])
  else if String.eqb gate_type "ccx" then
    match two_controls controls with
    | Some (c0, c1) => emit (Call "Toffoli" [c0; c1; target_qubit])
    | None => Raise (ValueError "CCX gate requires exactly 2 control qubits.")
    end
  else if String.eqb gate_type "swap" then emit (Call "SWAP" [target_qubit; control_qubit])
  else if String.eqb gate_type "measure" then Ret circuit
  else Raise (ValueError ("Unsupported gate type for PennyLane: " ++ gate_type)).

Definition quantum_program_gates (circuit_data : circuit_data) : res (list sdk_call) :=
  for_each build_step [] (G.gates circuit_data).

End Pennylane.

(** ** quantinuum_backend.py *)

Module Quantinuum.

Definition build_step (circuit : list sdk_call) (gate_info : gate_info)
  : res (list sdk_call) :=
  let gate_type := lower (G.gate gate_info) in
  let emit c := Ret (circuit ++ [c])%list in
  let on_target name := (t ← item "target" (G.target gate_info); emit (Call name [t])) in
  let rot name :=
    (theta ← params_item gate_info "theta";
     t ← item "target" (G.target gate_info);
     emit (Call name [theta; t])) in
  if String.eqb gate_type "h" then on_target "h"
  else if String.eqb gate_type "x" then on_target "x"
  else if String.eqb gate_type "y" then on_target "y"
  else if String.eqb gate_type "z" then on_target "z"
  else if String.eqb gate_type "s" then on_target "s"
  else if String.eqb gate_type "sdg" then on_target "sdg"
  else if String.eqb gate_type "t" then on_target "t"
  else if String.eqb gate_type "tdg" then on_target "tdg"
  else if String.eqb gate_type "rx" then rot "rx"
  else if String.eqb gate_type "ry" then rot "ry"
  else if String.eqb gate_type "rz" then rot "rz"
  else if String.eqb gate_type "cx" then
    c ← item "control" (G.control gate_info);
    t ← item "target" (G.target gate_info);
    emit (Call "cx" [c; t])
  else if String.eqb gate_type "ccx" then
    match G.controls gate_info with
    | None => Raise (KeyError "controls")
    | Some controls =>
        match controls with
        | [c0; c1] =>
            t ← item "target" (G.target gate_info);
            emit (Call "ccx" [c0; c1; t])
        | _ => Raise (ValueError ("CCX gate requires exactly 2 control qubits, got "
                                  ++ pretty (length controls)))
        end
    end
  else if String.eqb gate_type "swap" then
    t ← item "target" (G.target gate_info);
    c ← item "control" (G.control gate_info);
    emit (Call "swap" [t; c])
  else if String.eqb gate_type "measure" then
    t ← item "target" (G.target gate_info);
    t' ← item "target" (G.target gate_info);
    emit (Call "measure" [t; t'])
  else
    Raise (ValueError ("Unsupported gate type for Quantinuum (Azure Quantum): " ++ gate_type)).

Definition _build_qiskit_circuit_quantinuum (circuit_data : circuit_data)
  : res (list sdk_call) :=
  for_each build_step [] (G.gates circuit_data).

End Quantinuum.

(** ** What lies outside the repository *)

(** The process environment and the quantum SDKs.  [sdk op circuit args] is the
    outcome of the SDK operation [op] on the translated circuit with the given
    arguments: the printed form of what it returns (a device handle, a
    histogram of counts, a list of amplitudes and the table of probabilities
    computed from it), or the exception it raises.  An SDK operation never
    returns Python's [None] here.  [sample_shape] tells, for PennyLane's raw
    samples, whether they come in one of the two layouts [run_pennylane]
    accepts. *)
Record world : Type := World {
  getenv : string -> pyval;
  sdk : string -> list sdk_call -> list pyval -> res string;
  sample_shape : string -> bool
}.

(** A literal [{k: v, ...}]. *)
Definition mk (l : list (string * pyval)) : dict := list_to_map l.

(** [any(g["gate"].lower() == "measure" for g in circuit_data["gates"])] *)
Definition any_measure (circuit_data : circuit_data) : bool :=
  existsb (fun g => String.eqb (lower (G.gate g)) "measure") (G.gates circuit_data).

(** [try: body  except Exception as e: return handler(e)] *)
Definition try_except {A} (body : res A) (handler : pyexn -> res A) : res A :=
  match body with
  | Ret a => Ret a
  | Raise e => handler e
  end.

(** [x or "N/A"] *)
Definition or_else (v dflt : pyval) : pyval := if truthy v then v else dflt.

Definition run_aer (w : world) (circuit_data : circuit_data) (credentials : dict) : res dict :=
  try_except
    ('(circuit, has_explicit_measurements) ← Aer._build_qiskit_circuit_aer circuit_data;
     let backend_name := dget_or credentials "simulator_choice" (PStr "qasm_simulator") in
     let shots := dget_or credentials "shots" (PInt 1024) in
     if bool_decide (backend_name = PStr "aer_qasm_simulator") then
       let circuit :=
         if negb has_explicit_measurements
         then (circuit ++ [Call "measure" [PData "range(num_qubits)"; PData "range(num_qubits)"]])%list
         else circuit in
       counts ← sdk w "aer.execute.get_counts" circuit [shots];
       Ret (mk [("backend_used", PStr "Aer QASM Simulator");
                ("num_qubits", PInt (G.qubits circuit_data));
                ("counts", PData counts);
                ("statevector", PNone);
                ("probabilities", PNone)])
     else if bool_decide (backend_name = PStr "aer_statevector_simulator") then
       statevector ← sdk w "aer.execute.get_statevector" circuit [];
       probabilities ← sdk w "probabilities" circuit [PData statevector];
       Ret (mk [("backend_used", PStr "Aer Statevector Simulator");
                ("num_qubits", PInt (G.qubits circuit_data));
                ("counts", PNone);
                ("statevector", PData statevector);
                ("probabilities", PData probabilities)])
     else Raise (ValueError ("Unsupported Aer simulator: " ++ py_str backend_name)))
    (fun e => Ret (mk [("error", PStr (exn_str e));
                       ("backend_used", dget_or credentials "backend_name" (PStr "N/A"))])).

Definition run_cirq (w : world) (circuit_data : circuit_data) (credentials : dict) : res dict :=
  let shots :=
    if negb (bool_decide (credentials = ∅)) then dget_or credentials "shots" (PInt 1024)
    else PInt 1024 in
  try_except
    (circuit ← Cirq._build_cirq_circuit circuit_data;
     let has_measurements := any_measure circuit_data in
     if has_measurements then
       counts ← sdk w "cirq.run.histogram" circuit [shots];
       let statevector := PNone in
       let probabilities := PNone in
       Ret (mk [("backend_used", PStr "Cirq Local Simulator");
                ("num_qubits", PInt (G.qubits circuit_data));
                ("counts", if has_measurements then PData counts else PNone);
                ("statevector", statevector);
                ("probabilities", probabilities)])
     else
       statevector ← sdk w "cirq.simulate.final_state_vector" circuit [];
       probabilities ← sdk w "probabilities" circuit [PData statevector];
       Ret (mk [("backend_used", PStr "Cirq Local Simulator (Statevector)");
                ("num_qubits", PInt (G.qubits circuit_data));
                ("counts", PNone);
                ("statevector", PData statevector);
                ("probabilities", PData probabilities)]))
    (fun e => Ret (mk [("error", PStr (exn_str e));
                       ("backend_used", PStr "Cirq Local Simulator")])).

(** [aws_access_key_id and aws_secret_access_key and aws_region] *)
Definition aws_credentials_given (credentials : dict) : bool :=
  truthy (dget credentials "AWS_ACCESS_KEY_ID")
  && truthy (dget credentials "AWS_SECRET_ACCESS_KEY")
  && truthy (dget credentials "AWS_REGION").

(** A counts-only result, the shape most branches return. *)
Definition counts_result (backend_used : string) (circuit_data : circuit_data)
    (counts : string) : dict :=
  mk [("backend_used", PStr backend_used);
      ("num_qubits", PInt (G.qubits circuit_data));
      ("counts", PData counts);
      ("statevector", PNone);
      ("probabilities", PNone)].

Definition run_ionq (w : world) (circuit_data : circuit_data) (credentials : dict) : res dict :=
  let backend_name := dget credentials "backend_name" in
  let shots := dget_or credentials "shots" (PInt 1024) in
  if negb (truthy backend_name) then
    Raise (ValueError "IonQ backend name (e.g., 'ionq/qpu' or 'local') not specified.")
  else
  try_except
    (circuit ← Braket._build_braket_circuit circuit_data;
     if bool_decide (backend_name = PStr "local") then
       counts ← sdk w "braket.LocalSimulator.run" circuit [shots];
       Ret (counts_result "AWS Braket Local Simulator" circuit_data counts)
     else if bool_decide (backend_name = PStr "sv1") then
       _ ← sdk w "braket.AwsDevice" [] [PStr "arn:aws:braket:::device/quantum-simulator/amazon/sv1"];
       counts ← sdk w "braket.sv1.run" circuit [shots];
       (* the translation above adds no result type to the circuit *)
       let result_types : list string := [] in
       if existsb (String.eqb "StateVector") result_types then
         statevector ← sdk w "braket.sv1.statevector" circuit [];
         probabilities ← sdk w "probabilities" circuit [PData statevector];
         Ret (mk [("backend_used", PStr "AWS Braket SV1 Simulator");
                  ("num_qubits", PInt (G.qubits circuit_data));
                  ("counts", PData counts);
                  ("statevector", PData statevector);
                  ("probabilities", PData probabilities)])
       else
         Ret (counts_result "AWS Braket SV1 Simulator" circuit_data counts)
     else if bool_decide (backend_name = PStr "ionq/qpu") then
       if negb (aws_credentials_given credentials) then
         Raise (ValueError "AWS credentials (AWS_ACCESS_KEY_ID, AWS_SECRET_ACCESS_KEY, AWS_REGION) are required for IonQ QPU.")
       else
         _ ← try_except
               (sdk w "braket.AwsDevice" [] [PStr "arn:aws:braket:::device/qpu/ionq/ionQdevice"])
               (fun e => Raise (ValueError ("AWS Braket connection or IonQ QPU access failed. Please check your AWS credentials and region. Error: " ++ exn_str e)));
         try_except
           (counts ← sdk w "braket.ionq.run" circuit [shots];
            Ret (counts_result "IonQ QPU (via AWS Braket)" circuit_data counts))
           (fun e => Raise (RuntimeError ("Failed to execute circuit on IonQ QPU: " ++ exn_str e)))
     else Raise (ValueError ("Unsupported IonQ backend: " ++ py_str backend_name)))
    (fun e => Ret (mk [("error", PStr (exn_str e));
                       ("backend_used", or_else backend_name (PStr "N/A"))])).

Definition run_rigetti (w : world) (circuit_data : circuit_data) (credentials : dict) : res dict :=
  let aws_region := dget credentials "AWS_REGION" in
  let backend_name := dget credentials "backend_name" in
  let shots := dget_or credentials "shots" (PInt 1024) in
  if negb (truthy backend_name) then
    Raise (ValueError "Rigetti backend name (e.g., 'rigetti/qpu' or 'local') not specified.")
  else
  try_except
    (circuit ← Braket._build_braket_circuit_rigetti circuit_data;
     if bool_decide (backend_name = PStr "local") then
       counts ← sdk w "braket.LocalSimulator.run" circuit [shots];
       Ret (counts_result "AWS Braket Local Simulator (Rigetti context)" circuit_data counts)
     else if bool_decide (backend_name = PStr "rigetti/qpu") then
       if negb (aws_credentials_given credentials) then
         Raise (ValueError "AWS credentials (AWS_ACCESS_KEY_ID, AWS_SECRET_ACCESS_KEY, AWS_REGION) are required for Rigetti QPU.")
       else
         let rigetti_qpu_arn :=
           "arn:aws:braket:" ++ py_str aws_region ++ "::device/qpu/rigetti/Aspen-M-3" in
         _ ← try_except
               (sdk w "braket.AwsDevice" [] [PStr rigetti_qpu_arn])
               (fun e => Raise (ValueError ("AWS Braket connection or Rigetti QPU access failed. Please check your AWS credentials, region, and QPU ARN. Error: " ++ exn_str e)));
         try_except
           (counts ← sdk w "braket.rigetti.run" circuit [shots];
            Ret (counts_result ("Rigetti QPU (via AWS Braket): " ++ rigetti_qpu_arn)
                               circuit_data counts))
           (fun e => Raise (RuntimeError ("Failed to execute circuit on Rigetti QPU: " ++ exn_str e)))
     else Raise (ValueError ("Unsupported Rigetti backend: " ++ py_str backend_name)))
    (fun e => Ret (mk [("error", PStr (exn_str e));
                       ("backend_used", or_else backend_name (PStr "N/A"))])).

(** What the three [except] clauses around [service.get_backend] raise
    instead of the exception caught. *)
Definition get_backend_failure (backend_name : pyval) (e : pyexn) : pyexn :=
  match e with
  | OtherError "IBMProviderError" _ =>
      ValueError ("Could not find or connect to IBM backend '"
                  ++ py_str backend_name ++ "'. Error: " ++ exn_str e
                  ++ ". Please check backend name and your IBMQ_TOKEN.")
  | OtherError "IBMRuntimeError" _ =>
      ValueError ("IBM Runtime service error: " ++ exn_str e
                  ++ ". Please check your IBMQ_TOKEN and network connectivity.")
  | _ => ValueError ("Failed to connect to IBM Quantum service: " ++ exn_str e)
  end.

Definition run_ibm (w : world) (circuit_data : circuit_data) (credentials : dict) : res dict :=
  let token := dget credentials "IBMQ_TOKEN" in
  let backend_name := dget_or credentials "backend_name" (PStr "ibm_qasm_simulator") in
  let shots := dget_or credentials "shots" (PInt 1024) in
  try_except
    (if negb (truthy token) then
       Raise (ValueError "IBMQ_TOKEN is missing. Please provide your IBM Quantum Experience Token.")
     else
       service ← sdk w "QiskitRuntimeService" [] [token];
       backend ← try_except
         (sdk w "service.get_backend" [] [PData service; backend_name])
         (fun e => Raise (get_backend_failure backend_name e));
       '(circuit, _) ← Ibm.build_circuit circuit_data;
       counts ← sdk w "ibm.transpile.Sampler.run" circuit [PData backend; shots];
       Ret (mk [("backend_used", backend_name);
                ("num_qubits", PInt (G.qubits circuit_data));
                ("counts", PData counts);
                ("statevector", PNone);
                ("probabilities", PNone)]))
    (fun e => Ret (mk [("error", PStr (exn_str e)); ("backend_used", backend_name)])).

(** [qml.device] returns a device or raises, so the [dev is None] test never
    fires and is left out. *)
Definition run_pennylane (w : world) (circuit_data : circuit_data) (credentials : dict)
  : res dict :=
  let backend_name := dget_or credentials "backend_name" (PStr "default.qubit") in
  let shots := dget_or credentials "shots" (PInt 1024) in
  let pennylane_api_key := dget credentials "PENNYLANE_API_KEY" in
  try_except
    (dev ←
       (if bool_decide (backend_name = PStr "default.qubit") then
          sdk w "qml.device" [] [PStr "default.qubit"; PInt (G.qubits circuit_data); shots]
        else if bool_decide (backend_name = PStr "lightning.qubit") then
          sdk w "qml.device" [] [PStr "lightning.qubit"; PInt (G.qubits circuit_data); shots]
        else if truthy pennylane_api_key then
          try_except
            (dev ← sdk w "qml.device" []
                     [backend_name; PInt (G.qubits circuit_data); shots; pennylane_api_key];
             _ ← sdk w "dev.capabilities" [] [PData dev];
             Ret dev)
            (fun e => Raise (ValueError ("Failed to initialize PennyLane device '"
                                         ++ py_str backend_name
                                         ++ "' with provided API key. Error: " ++ exn_str e)))
        else
          Raise (ValueError ("Unsupported PennyLane backend '" ++ py_str backend_name
                             ++ "' or missing PENNYLANE_API_KEY for a remote backend.")));
     let has_measurements := any_measure circuit_data in
     if has_measurements then
       circuit ← Pennylane.quantum_program_gates circuit_data;
       raw_samples ← sdk w "quantum_program.sample" circuit [PData dev];
       if sample_shape w raw_samples then
         counts ← sdk w "bitstring.count" circuit [PData raw_samples];
         Ret (mk [("backend_used", PStr ("PennyLane " ++ py_str backend_name ++ " Simulator"));
                  ("num_qubits", PInt (G.qubits circuit_data));
                  ("counts", PData counts);
                  ("statevector", PNone);
                  ("probabilities", PNone)])
       else Raise (TypeError "Unexpected sample format from PennyLane.")
     else
       circuit ← Pennylane.quantum_program_gates circuit_data;
       statevector_list ← sdk w "quantum_program.state" circuit [PData dev];
       probabilities ← sdk w "probabilities" circuit [PData statevector_list];
       Ret (mk [("backend_used",
                 PStr ("PennyLane " ++ py_str backend_name ++ " Simulator (Statevector)"));
                ("num_qubits", PInt (G.qubits circuit_data));
                ("counts", PNone);
                ("statevector", PData statevector_list);
                ("probabilities", PData probabilities)]))
    (fun e =>
       if is_ImportError e then
         Ret (mk [("error", PStr ("PennyLane backend '" ++ py_str backend_name
                    ++ "' requires its corresponding plugin (e.g., pennylane-lightning for lightning.qubit). Please install it."));
                  ("backend_used", backend_name)])
       else Ret (mk [("error", PStr (exn_str e)); ("backend_used", backend_name)])).

(** [sub_id and resource_group and workspace_name and location] *)
Definition azure_credentials_given (credentials : dict) : bool :=
  truthy (dget credentials "AZURE_QUANTUM_SUBSCRIPTION_ID")
  && truthy (dget credentials "AZURE_QUANTUM_RESOURCE_GROUP")
  && truthy (dget credentials "AZURE_QUANTUM_WORKSPACE_NAME")
  && truthy (dget credentials "AZURE_QUANTUM_LOCATION").

Definition run_quantinuum (w : world) (circuit_data : circuit_data) (credentials : dict)
  : res dict :=
  let sub_id := dget credentials "AZURE_QUANTUM_SUBSCRIPTION_ID" in
  let resource_group := dget credentials "AZURE_QUANTUM_RESOURCE_GROUP" in
  let workspace_name := dget credentials "AZURE_QUANTUM_WORKSPACE_NAME" in
  let location := dget credentials "AZURE_QUANTUM_LOCATION" in
  let backend_name := dget credentials "backend_name" in
  let shots := dget_or credentials "shots" (PInt 1024) in
  if negb (truthy backend_name) then
    Raise (ValueError "Quantinuum backend name (e.g., 'quantinuum.sim.h1-1sc' or 'quantinuum.qpu.h1') not specified.")
  else
  let connect :=
    try_except
      (sdk w "AzureQuantumProvider.get_backend" []
           [PStr ("/subscriptions/" ++ py_str sub_id ++ "/resourceGroups/"
                  ++ py_str resource_group
                  ++ "/providers/Microsoft.Quantum/Workspaces/" ++ py_str workspace_name);
            location; backend_name])
      (fun e => Raise (ValueError ("Failed to connect to Azure Quantum workspace or backend '"
                                   ++ py_str backend_name ++ "': " ++ exn_str e
                                   ++ ". Check Azure credentials and backend name."))) in
  try_except
    (circuit ← Quantinuum._build_qiskit_circuit_quantinuum circuit_data;
     if startswith "quantinuum.sim" (py_str backend_name) then
       if negb (azure_credentials_given credentials) then
         Raise (ValueError "Azure Quantum workspace credentials are required for Quantinuum simulators on Azure.")
       else
         backend ← connect;
         counts ← sdk w "backend.run.get_counts" circuit [PData backend; shots];
         Ret (counts_result ("Quantinuum Simulator (Azure Quantum): " ++ py_str backend_name)
                            circuit_data counts)
     else if startswith "quantinuum.qpu" (py_str backend_name) then
       if negb (azure_credentials_given credentials) then
         Raise (ValueError "Azure Quantum workspace credentials are required for Quantinuum QPU.")
       else
         backend ← connect;
         counts ← sdk w "backend.run.get_counts" circuit [PData backend; shots];
         Ret (counts_result ("Quantinuum QPU (Azure Quantum): " ++ py_str backend_name)
                            circuit_data counts)
     else Raise (ValueError ("Unsupported Quantinuum backend: " ++ py_str backend_name)))
    (fun e => Ret (mk [("error", PStr (exn_str e));
                       ("backend_used", or_else backend_name (PStr "N/A"))])).

(** ** app.py: the registry, the credential store and the /run handler *)

(** The runner functions a registry entry can name. *)
Inductive runner : Type :=
  | Run_ibm | Run_ionq | Run_rigetti | Run_cirq | Run_pennylane | Run_aer.

#[export] Instance runner_eq_dec : EqDecision runner.
Proof. solve_decision. Defined.

(** Calling the function a registry entry names. *)
Definition call_runner (w : world) (r : runner) : circuit_data -> dict -> res dict :=
  match r with
  | Run_ibm => run_ibm w
  | Run_ionq => run_ionq w
  | Run_rigetti => run_rigetti w
  | Run_cirq => run_cirq w
  | Run_pennylane => run_pennylane w
  | Run_aer => run_aer w
  end.

Module B.
Record backend_info : Type := BackendInfo {
  provider : string;
  runner : runner;
  backend_name : string;
  provider_type : string
}.
End B.

Definition BACKEND_MAP : gmap string B.backend_info :=
  list_to_map [
    ("ibm_qasm_simulator", B.BackendInfo "ibm" Run_ibm "ibm_qasm_simulator" "simulator");
    ("ibm_brisbane", B.BackendInfo "ibm" Run_ibm "ibm_brisbane" "qpu");
    ("ibm_osprey", B.BackendInfo "ibm" Run_ibm "ibm_osprey" "qpu");
    ("aws_ionq", B.BackendInfo "ionq" Run_ionq "ionq/qpu" "qpu");
    ("aws_sv1", B.BackendInfo "ionq" Run_ionq "sv1" "simulator");
    ("aws_local", B.BackendInfo "ionq" Run_ionq "local" "simulator");
    ("aws_rigetti", B.BackendInfo "rigetti" Run_rigetti "rigetti/qpu" "qpu");
    ("google_cirq", B.BackendInfo "cirq" Run_cirq "cirq_simulator" "simulator");
    ("pennylane_default", B.BackendInfo "pennylane" Run_pennylane "default.qubit" "simulator");
    ("pennylane_lightning", B.BackendInfo "pennylane" Run_pennylane "lightning.qubit" "simulator");
    ("aer_qasm_simulator", B.BackendInfo "aer" Run_aer "aer_qasm_simulator" "simulator");
    ("aer_statevector_simulator",
       B.BackendInfo "aer" Run_aer "aer_statevector_simulator" "simulator")
  ].

(** [BACKEND_MAP.get(key)] for a key taken from the payload: only a string can
    name an entry. *)
Definition backend_map_get (key : pyval) : option B.backend_info :=
  match key with
  | PStr s => BACKEND_MAP !! s
  | _ => None
  end.

(** Dictionaries that are shared by reference are cells of a heap; a
    reference is the position of its cell. *)
Abbreviation ref := nat.

(** The state of the server process: the heap of shared dictionaries, the
    module-level [_in_memory_credentials_store] (provider name to the bundle
    object saved for it), and the log of runner invocations made so far, each
    with the runner and the credentials it was handed. *)
Record state : Type := State {
  heap : list dict;
  _in_memory_credentials_store : gmap string ref;
  calls : list (runner * dict)
}.

(** A new dictionary object. *)
Definition alloc (d : dict) (st : state) : ref * state :=
  (length (heap st),
   State (heap st ++ [d]) (_in_memory_credentials_store st) (calls st)).

(** The dictionary a reference points to. *)
Definition deref (st : state) (r : ref) : dict := default ∅ (heap st !! r).

(** [obj[k] = v] on a shared dictionary. *)
Definition setitem (r : ref) (k : string) (v : pyval) (st : state) : state :=
  State (<[r := <[k := v]> (deref st r)]> (heap st))
        (_in_memory_credentials_store st) (calls st).

Definition _get_credentials_for_provider (w : world) (provider_key : string) (st : state)
  : ref * state :=
  match _in_memory_credentials_store st !! provider_key with
  | Some stored => alloc (deref st stored) st      (* .copy() *)
  | None =>
      let credentials : dict :=
        if String.eqb provider_key "ibm" then
          mk [("IBMQ_TOKEN", getenv w "IBMQ_TOKEN")]
        else if String.eqb provider_key "ionq" || String.eqb provider_key "rigetti" then
          mk [("AWS_ACCESS_KEY_ID", getenv w "AWS_ACCESS_KEY_ID");
              ("AWS_SECRET_ACCESS_KEY", getenv w "AWS_SECRET_ACCESS_KEY");
              ("AWS_REGION", getenv w "AWS_REGION")]
        else if String.eqb provider_key "quantinuum" then
          mk [("AZURE_QUANTUM_SUBSCRIPTION_ID", getenv w "AZURE_QUANTUM_SUBSCRIPTION_ID");
              ("AZURE_QUANTUM_WORKSPACE_NAME", getenv w "AZURE_QUANTUM_WORKSPACE_NAME");
              ("AZURE_QUANTUM_RESOURCE_GROUP", getenv w "AZURE_QUANTUM_RESOURCE_GROUP");
              ("AZURE_QUANTUM_LOCATION", getenv w "AZURE_QUANTUM_LOCATION")]
        else if String.eqb provider_key "pennylane" then
          mk [("PENNYLANE_API_KEY", getenv w "PENNYLANE_API_KEY")]
        else ∅ in
      alloc credentials st
  end.

(** What a handler answers: [jsonify(body), status]. *)
Record response : Type := Response {
  body : dict;
  status : Z
}.

(** The JSON payload of [POST /run].  A field is [None] when its key is
    missing. *)
Module R.
Record payload : Type := Payload {
  provider : option pyval;
  circuit : option circuit_data;
  use_simulator_if_qpu_fails : option pyval;
  simulator_choice : option pyval;
  shots : option pyval
}.
End R.

(** [runner_function(circuit_data, credentials)]: the call is logged, the
    runner reads the bundle the reference points to. *)
Definition invoke (w : world) (r : runner) (circuit_data : circuit_data) (credentials : ref)
    (st : state) : res dict * state :=
  let c := deref st credentials in
  (call_runner w r circuit_data c,
   State (heap st) (_in_memory_credentials_store st) (calls st ++ [(r, c)])).

(** The three assignments made on a freshly resolved bundle. *)
Definition prepare_credentials (w : world) (info : B.backend_info)
    (shots simulator_choice_key : pyval) (st : state) : ref * state :=
  let '(credentials, st) := _get_credentials_for_provider w (B.provider info) st in
  let st := setitem credentials "backend_name" (PStr (B.backend_name info)) st in
  let st := setitem credentials "shots" shots st in
  let st := setitem credentials "simulator_choice" simulator_choice_key st in
  (credentials, st).

(** [d[k]] on a result dictionary. *)
Definition ditem (d : dict) (k : string) : res pyval :=
  match d !! k with
  | Some v => Ret v
  | None => Raise (KeyError k)
  end.

(** [result and "error" in result] *)
Definition is_error_result (result : dict) : bool :=
  negb (bool_decide (result = ∅)) && has_key result "error".

(** [not fallback_backend_info or fallback_backend_info["provider_type"] == "qpu"] *)
Definition invalid_fallback (fallback_backend_info : option B.backend_info) : bool :=
  match fallback_backend_info with
  | None => true
  | Some info => String.eqb (B.provider_type info) "qpu"
  end.

(** The fallback block of the [try] body (an error result came back from a QPU
    and the caller asked for the simulator).  A raise in here is still inside
    the [try]. *)
Definition fallback_after_error_result (w : world) (provider_key : pyval)
    (circuit_data : circuit_data) (result : dict) (simulator_choice_key shots : pyval)
    (st : state) : res response * state :=
  let error := dget result "error" in
  let invalid :=
    (Ret (Response
       (mk [("error", PStr ("Original execution on '" ++ py_str provider_key
                            ++ "' failed: " ++ py_str error ++ ". "
                            ++ "Invalid fallback simulator choice: "
                            ++ py_str simulator_choice_key ++ ". Cannot proceed."));
            ("backend_used", dget_or result "backend_used" (PStr "None"))])
       500), st) in
  match backend_map_get simulator_choice_key with
  | None => invalid
  | Some fallback_backend_info =>
      if String.eqb (B.provider_type fallback_backend_info) "qpu" then invalid
      else
        let fallback_runner := B.runner fallback_backend_info in
        let fallback_backend_name := B.backend_name fallback_backend_info in
        let '(fallback_credentials, st) :=
          prepare_credentials w fallback_backend_info shots simulator_choice_key st in
        match invoke w fallback_runner circuit_data fallback_credentials st with
        | (Raise e, st) => (Raise e, st)
        | (Ret fallback_result, st) =>
            if is_error_result fallback_result then
              (Ret (Response
                 (mk [("error", PStr ("Original execution on '" ++ py_str provider_key
                                      ++ "' failed: " ++ py_str error ++ ". "
                                      ++ "Fallback to '" ++ fallback_backend_name
                                      ++ "' also failed: "
                                      ++ py_str (dget fallback_result "error")));
                      ("backend_used", dget_or fallback_result "backend_used" (PStr "None"));
                      ("original_backend_attempted", provider_key)])
                 500), st)
            else
              (used ← ditem fallback_result "backend_used";
               let fallback_result :=
                 <["backend_used" := PStr ("FALLBACK: " ++ py_str used
                                           ++ " (original target: " ++ py_str provider_key
                                           ++ ")")]> fallback_result in
               let fallback_result :=
                 <["original_backend_attempted" := provider_key]> fallback_result in
               let fallback_result := <["fallback_reason" := error]> fallback_result in
               Ret (Response fallback_result 200), st)
        end
  end.

(** The [try] body of [run_circuit]. *)
Definition try_body (w : world) (provider_key : pyval) (circuit_data : circuit_data)
    (runner_function : runner) (credentials : ref) (is_qpu : bool)
    (use_simulator_if_qpu_fails simulator_choice_key shots : pyval) (st : state)
  : res response * state :=
  match invoke w runner_function circuit_data credentials st with
  | (Raise e, st) => (Raise e, st)
  | (Ret result, st) =>
      if is_error_result result then
        if is_qpu && truthy use_simulator_if_qpu_fails then
          fallback_after_error_result w provider_key circuit_data result
                                      simulator_choice_key shots st
        else
          (Ret (Response
             (mk [("error", dget result "error");
                  ("backend_used", dget_or result "backend_used" (PStr "None"))])
             500), st)
      else (Ret (Response result 200), st)
  end.

(** The words that make [except ValueError] treat the message as a credential
    or connection problem. *)
Definition mentions_credentials (error_message : string) : bool :=
  let m := lower error_message in
  contains "credentials" m || contains "token" m || contains "access key" m
  || contains "connection" m || contains "authentication" m.

(** The [except ValueError as e] clause.  A raise in here is no longer
    caught by the handler. *)
Definition except_ValueError (w : world) (provider_key : pyval)
    (circuit_data : circuit_data) (error_message : string) (is_qpu : bool)
    (use_simulator_if_qpu_fails simulator_choice_key shots : pyval) (st : state)
  : res response * state :=
  if mentions_credentials error_message then
    if is_qpu && truthy use_simulator_if_qpu_fails then
      let invalid :=
        (Ret (Response
           (mk [("error", PStr ("Original execution on '" ++ py_str provider_key
                                ++ "' failed due to credentials: " ++ error_message ++ ". "
                                ++ "Invalid fallback simulator choice: "
                                ++ py_str simulator_choice_key ++ ". Cannot proceed."));
                ("backend_used", provider_key)])
           500), st) in
      match backend_map_get simulator_choice_key with
      | None => invalid
      | Some fallback_backend_info =>
          if String.eqb (B.provider_type fallback_backend_info) "qpu" then invalid
          else
            let fallback_runner := B.runner fallback_backend_info in
            let fallback_backend_name := B.backend_name fallback_backend_info in
            let '(fallback_credentials, st) :=
              prepare_credentials w fallback_backend_info shots simulator_choice_key st in
            match invoke w fallback_runner circuit_data fallback_credentials st with
            | (Raise e, st) => (Raise e, st)
            | (Ret fallback_result, st) =>
                if is_error_result fallback_result then
                  (Ret (Response
                     (mk [("error", PStr ("Original execution on '" ++ py_str provider_key
                                          ++ "' failed due to credentials: "
                                          ++ error_message ++ ". "
                                          ++ "Fallback to '" ++ fallback_backend_name
                                          ++ "' also failed: "
                                          ++ py_str (dget fallback_result "error")));
                          ("backend_used",
                             dget_or fallback_result "backend_used" (PStr "None"));
                          ("original_backend_attempted", provider_key);
                          ("fallback_reason", PStr error_message)])
                     500), st)
                else
                  (used ← ditem fallback_result "backend_used";
                   let fallback_result :=
                     <["backend_used" := PStr ("FALLBACK: " ++ py_str used
                                               ++ " (original target: "
                                               ++ py_str provider_key ++ ")")]>
                       fallback_result in
                   let fallback_result :=
                     <["original_backend_attempted" := provider_key]> fallback_result in
                   let fallback_result :=
                     <["fallback_reason" := PStr error_message]> fallback_result in
                   Ret (Response fallback_result 200), st)
            end
      end
    else
      (Ret (Response
         (mk [("error", PStr ("Credential error for " ++ py_str provider_key ++ ": "
                              ++ error_message));
              ("backend_used", provider_key)])
         401), st)
  else
    (Ret (Response
       (mk [("error", PStr ("Circuit validation error: " ++ error_message));
            ("backend_used", provider_key)])
       400), st).

(** [POST /run].  [data] is [None] when the request carries no JSON object (or
    an empty one).  A [Raise] is an exception that leaves the handler.  The
    loop that gives every gate a ["qubits"] list touches a key that no adapter
    reads and is left out. *)
Definition run_circuit (w : world) (data : option R.payload) (st : state)
  : res response * state :=
  match data with
  | None => (Ret (Response (mk [("error", PStr "Invalid JSON payload")]) 400), st)
  | Some data =>
      let provider_key := get (R.provider data) in
      match R.circuit data with
      | None =>
          (Raise (OtherError "AttributeError" "'NoneType' object has no attribute 'get'"), st)
      | Some circuit_data =>
          let use_simulator_if_qpu_fails :=
            default (PBool false) (R.use_simulator_if_qpu_fails data) in
          let simulator_choice_key :=
            default (PStr "aer_qasm_simulator") (R.simulator_choice data) in
          let shots := default (PInt 1024) (R.shots data) in
          if negb (truthy provider_key) then
            (Ret (Response
               (mk [("error", PStr "Missing 'provider' or 'circuit' in payload")]) 400), st)
          else
            match backend_map_get provider_key with
            | None =>
                (Ret (Response
                   (mk [("error", PStr ("Unsupported provider: " ++ py_str provider_key))])
                   400), st)
            | Some selected_backend_info =>
                let runner_function := B.runner selected_backend_info in
                let provider_type := B.provider_type selected_backend_info in
                let '(credentials, st) :=
                  prepare_credentials w selected_backend_info shots simulator_choice_key st in
                let is_qpu := String.eqb provider_type "qpu" in
                match try_body w provider_key circuit_data runner_function credentials
                               is_qpu use_simulator_if_qpu_fails simulator_choice_key
                               shots st with
                | (Ret r, st) => (Ret r, st)
                | (Raise e, st) =>
                    if is_ValueError e then
                      except_ValueError w provider_key circuit_data (exn_str e) is_qpu
                        use_simulator_if_qpu_fails simulator_choice_key shots st
                    else
                      (Ret (Response
                         (mk [("error", PStr ("An unexpected error occurred: " ++ exn_str e));
                              ("backend_used", provider_key)])
                         500), st)
                end
            end
      end
  end.

(** [POST /save_credentials]: the bundle parsed from the request is a new
    object, and the store keeps a reference to it.  Provider families are
    strings; a payload whose provider is no string, or whose credentials are
    no object, is taken as lacking them. *)
Definition save_credentials (provider : pyval) (credentials : option dict) (st : state)
  : response * state :=
  match provider, credentials with
  | PStr p, Some c =>
      if negb (truthy provider) || bool_decide (c = ∅) then
        (Response (mk [("error", PStr "Missing 'provider' or 'credentials' in payload")]) 400, st)
      else
        let '(r, st) := alloc c st in
        (Response (mk [("message", PStr ("Credentials for " ++ p
                                         ++ " saved successfully (in memory)."))]) 200,
         State (heap st) (<[p := r]> (_in_memory_credentials_store st)) (calls st))
  | _, _ =>
      (Response (mk [("error", PStr "Missing 'provider' or 'credentials' in payload")]) 400, st)
  end.

(** The state of a server that has just started. *)
Definition initial_state : state := State [] ∅ [].

(** ** Notions used to state the properties *)

(** A field of a result is present when it holds something other than
    [None]. *)
Definition present (d : dict) (k : string) : bool :=
  negb (bool_decide (dget d k = PNone)).

(** Exactly one of counts, statevector and error is present. *)
Definition exactly_one_output (d : dict) : bool :=
  match present d "counts", present d "statevector", present d "error" with
  | true, false, false
  | false, true, false
  | false, false, true => true
  | _, _, _ => false
  end.

(** The runner of every adapter: the six that [app.py] registers, and
    [run_quantinuum]. *)
Definition adapter_runners (w : world) : list (circuit_data -> dict -> res dict) :=
  [run_ibm w; run_ionq w; run_rigetti w; run_cirq w; run_pennylane w; run_aer w;
   run_quantinuum w].

(** The gate kinds every adapter has a branch for. *)
Definition common_kinds : list string :=
  ["h"; "x"; "y"; "z"; "s"; "sdg"; "t"; "tdg"; "rx"; "ry"; "rz"; "cx"; "ccx"; "swap";
   "measure"].

(** The further kinds only [aer_backend.py] has a branch for. *)
Definition aer_only_kinds : list string :=
  ["p"; "u"; "cy"; "cz"; "crx"; "cry"; "crz"; "cu"].

(** Is the (lower-cased) kind of the gate in the list? *)
Definition kind_in (kinds : list string) (g : gate_info) : bool :=
  existsb (String.eqb (lower (G.gate g))) kinds.

(** The runner invocations a handler run added to the log. *)
Definition new_calls (before after : state) : list (runner * dict) :=
  drop (length (calls before)) (calls after).

(** An attempt failed: the runner raised, or returned an error result. *)
Definition failed (o : res dict) : bool :=
  match o with
  | Ret d => is_error_result d
  | Raise _ => true
  end.

(** Every reference kept in the credential store points into the heap. *)
Definition store_ok (st : state) : Prop :=
  map_Forall (fun _ r => (r < length (heap st))%nat) (_in_memory_credentials_store st).

(** The later state has the same credential store and the same heap cells,
    with new cells after them. *)
Definition grows (st st' : state) : Prop :=
  _in_memory_credentials_store st' = _in_memory_credentials_store st /\
  exists cells, heap st' = (heap st ++ cells)%list.

(** Does the key name a registry entry of provider type ["simulator"]? *)
Definition resolves_to_simulator (key : pyval) : bool :=
  match backend_map_get key with
  | Some info => String.eqb (B.provider_type info) "simulator"
  | None => false
  end.

(** *** Sample inputs *)

(** A gate with only a kind and a target. *)
Definition gate_on (kind : string) (target : Z) : gate_info :=
  G.GateInfo kind (Some (PInt target)) None None None None None None.

(** An [rx] gate on qubit 0 whose ["params"] object is empty. *)
Definition rx_without_theta : gate_info :=
  G.GateInfo "rx" (Some (PInt 0)) None None None None None (Some ∅).

(** An environment with no variable set, and SDKs that answer every call. *)
Definition quiet_world : world :=
  World (fun _ => PNone) (fun op _ _ => Ret ("<" ++ op ++ ">")) (fun _ => true).

(** The same environment with SDKs that fail every call. *)
Definition broken_world : world :=
  World (fun _ => PNone) (fun op _ _ => Raise (RuntimeError (op ++ " failed")))
        (fun _ => true).

(** An H gate on a one-qubit circuit. *)
Definition one_h : circuit_data := G.CircuitData 1 [gate_on "h" 0].

(** [POST /run] for the IonQ QPU, asking for the simulator on failure and
    naming no simulator. *)
Definition ionq_request (c : circuit_data) : R.payload :=
  R.Payload (Some (PStr "aws_ionq")) (Some c) (Some (PBool true)) None None.

(** The three shapes a runner's result takes: an error with the backend it
    was meant for, counts alone, or a statevector with its probabilities. *)
Inductive result_shape (d : dict) : Prop :=
  | shape_error (m : string) (b : pyval) :
      d = mk [("error", PStr m); ("backend_used", b)] -> result_shape d
  | shape_counts (b : pyval) (n : Z) (c : string) :
      d = mk [("backend_used", b); ("num_qubits", PInt n); ("counts", PData c);
              ("statevector", PNone); ("probabilities", PNone)] -> result_shape d
  | shape_state (b : pyval) (n : Z) (s p : string) :
      d = mk [("backend_used", b); ("num_qubits", PInt n); ("counts", PNone);
              ("statevector", PData s); ("probabilities", PData p)] -> result_shape d.

(** *** The answers of the /run handler, path by path *)

(** A failed primary attempt with no fallback asked for, or on a simulator. *)
Definition plain_failure (result : dict) : response :=
  Response (mk [("error", dget result "error");
                ("backend_used", dget_or result "backend_used" (PStr "None"))]) 500.

(** A failed primary attempt whose fallback choice is no simulator of the
    registry. *)
Definition rejected_fallback (provider_key simulator_choice_key : pyval) (result : dict)
  : response :=
  Response
    (mk [("error", PStr ("Original execution on '" ++ py_str provider_key
                         ++ "' failed: " ++ py_str (dget result "error") ++ ". "
                         ++ "Invalid fallback simulator choice: "
                         ++ py_str simulator_choice_key ++ ". Cannot proceed."));
         ("backend_used", dget_or result "backend_used" (PStr "None"))])
    500.

(** Both attempts failed. *)
Definition both_failed (provider_key : pyval) (fallback_backend_name : string)
    (result fallback_result : dict) : response :=
  Response
    (mk [("error", PStr ("Original execution on '" ++ py_str provider_key
                         ++ "' failed: " ++ py_str (dget result "error") ++ ". "
                         ++ "Fallback to '" ++ fallback_backend_name
                         ++ "' also failed: "
                         ++ py_str (dget fallback_result "error")));
         ("backend_used", dget_or fallback_result "backend_used" (PStr "None"));
         ("original_backend_attempted", provider_key)])
    500.

(** The fallback succeeded: its result with three fields set. *)
Definition fallback_success (provider_key : pyval) (result fallback_result : dict)
  : response :=
  Response
    (<["fallback_reason" := dget result "error"]>
       (<["original_backend_attempted" := provider_key]>
          (<["backend_used" :=
               PStr ("FALLBACK: " ++ py_str (dget fallback_result "backend_used")
                     ++ " (original target: " ++ py_str provider_key ++ ")")]>
             fallback_result)))
    200.

(** The fields of the payload after their defaults. *)
Definition flag_of (data : R.payload) : pyval :=
  default (PBool false) (R.use_simulator_if_qpu_fails data).

Definition simulator_choice_of (data : R.payload) : pyval :=
  default (PStr "aer_qasm_simulator") (R.simulator_choice data).

(** Is the registry entry a QPU? *)
Definition is_qpu_entry (info : B.backend_info) : bool :=
  String.eqb (B.provider_type info) "qpu".

(** [POST /run] for the local Cirq simulator. *)
Definition cirq_request (c : circuit_data) : R.payload :=
  R.Payload (Some (PStr "google_cirq")) (Some c) None None None.

(** A gate of a kind no adapter knows, on a two-qubit circuit. *)
Definition one_unknown_gate : circuit_data := G.CircuitData 2 [gate_on "foo" 0].

(** A bundle as a user saves it for the IonQ family. *)
Definition aws_bundle : dict :=
  mk [("AWS_ACCESS_KEY_ID", PStr "AKIA"); ("AWS_SECRET_ACCESS_KEY", PStr "s3cr3t");
      ("AWS_REGION", PStr "us-east-1")].

(** The server after that bundle was saved. *)
Definition after_save : state :=
  (save_credentials (PStr "ionq") (Some aws_bundle) initial_state).2.

(** The bundle [/run] hands to [run_ionq] for ["aws_ionq"] when nothing was
    saved and the environment is empty. *)
Definition ionq_env_bundle : dict :=
  mk [("AWS_ACCESS_KEY_ID", PNone); ("AWS_SECRET_ACCESS_KEY", PNone); ("AWS_REGION", PNone);
      ("backend_name", PStr "ionq/qpu"); ("shots", PInt 1024);
      ("simulator_choice", PStr "aer_qasm_simulator")].

(** The bundle it hands to [run_aer] for ["aer_qasm_simulator"]. *)
Definition aer_bundle : dict :=
  mk [("backend_name", PStr "aer_qasm_simulator"); ("shots", PInt 1024);
      ("simulator_choice", PStr "aer_qasm_simulator")].


(** What [run_ionq] returns for the QPU without AWS credentials. *)
Definition ionq_failure : dict :=
  mk [("error", PStr "AWS credentials (AWS_ACCESS_KEY_ID, AWS_SECRET_ACCESS_KEY, AWS_REGION) are required for IonQ QPU.");
      ("backend_used", PStr "ionq/qpu")].

(** What [run_aer] returns for [one_h] when the SDK answers, and when it
    fails. *)
Definition aer_counts : dict :=
  mk [("backend_used", PStr "Aer QASM Simulator"); ("num_qubits", PInt 1);
      ("counts", PData "<aer.execute.get_counts>"); ("statevector", PNone);
      ("probabilities", PNone)].

Definition aer_failure : dict :=
  mk [("error", PStr "aer.execute.get_counts failed");
      ("backend_used", PStr "aer_qasm_simulator")].

(** What [run_cirq] returns for [one_h] when the SDK answers. *)
Definition cirq_state : dict :=
  mk [("backend_used", PStr "Cirq Local Simulator (Statevector)");
      ("num_qubits", PInt 1); ("counts", PNone);
      ("statevector", PData "<cirq.simulate.final_state_vector>");
      ("probabilities", PData "<probabilities>")].

(** *** Notions for the further properties *)

(** The content of the bundle that resolving a provider family yields. *)
Definition resolved (w : world) (provider_key : string) (st : state) : dict :=
  let r := _get_credentials_for_provider w provider_key st in deref r.2 r.1.

(** A resolved bundle after the three assignments of the handler. *)
Definition prepared_bundle (info : B.backend_info) (shots simulator_choice_key : pyval)
    (base : dict) : dict :=
  <["simulator_choice" := simulator_choice_key]>
    (<["shots" := shots]> (<["backend_name" := PStr (B.backend_name info)]> base)).

(** The shots of the payload after the default. *)
Definition shots_of (data : R.payload) : pyval := default (PInt 1024) (R.shots data).

(** Does the translated circuit hold a measurement call? *)
Definition has_measure_call (circuit : list sdk_call) : bool :=
  existsb (fun c => match c with Call m _ => String.eqb m "measure" end) circuit.

(** The circuit with every gate kind in lower case. *)
Definition lower_kinds (cd : circuit_data) : circuit_data :=
  G.CircuitData (G.qubits cd)
    (map (fun g => G.GateInfo (lower (G.gate g)) (G.target g) (G.control g) (G.controls g)
                              (G.control1 g) (G.control2 g) (G.classical_bit g) (G.params g))
         (G.gates cd)).

(** A Bell pair written with upper-case kinds, and measured. *)
Definition bell_upper : circuit_data :=
  G.CircuitData 2
    [gate_on "H" 0;
     G.GateInfo "CX" (Some (PInt 1)) (Some (PInt 0)) None None None None None;
     gate_on "MEASURE" 0; gate_on "MEASURE" 1].

(** ** app.py: /transpile_circuit *)

(** The editor's own gate format, which this endpoint reads: a name, the list
    of qubit indices and the list of parameters.  A field is [None] when the
    key is missing or [null].  Indices and the qubit count are JSON integers,
    booleans, strings or [null]. *)
Module Transpile.

Record gate : Type := Gate {
  name : option string;
  qubits : option (list pyval);
  parameters : option (list pyval)
}.

(** [circuit] is [None] when the payload has no circuit object or an empty
    one, and otherwise the object's gate list ([[]] when it has none). *)
Record payload : Type := Payload {
  circuit : option (list gate);
  target_backend_name : pyval;
  num_qubits : pyval
}.

End Transpile.

(** An integer, as Python orders it ([bool] is an [int]). *)
Definition as_number (v : pyval) : option Z :=
  match v with
  | PInt z => Some z
  | PBool b => Some (if b then 1 else 0)
  | _ => None
  end.

(** [a >= b] *)
Definition py_ge (a b : pyval) : res bool :=
  match a, b with
  | PStr x, PStr y => Ret (String.leb y x)
  | _, _ =>
      match as_number a, as_number b with
      | Some x, Some y => Ret (y <=? x)
      | _, _ => Raise (TypeError "'>=' not supported between these instances")
      end
  end.

(** [any(q >= num_qubits for q in qubits)], which stops at the first index
    that is too large. *)
Fixpoint any_ge (num_qubits : pyval) (qubits : list pyval) : res bool :=
  match qubits with
  | [] => Ret false
  | q :: rest =>
      match py_ge q num_qubits with
      | Raise e => Raise e
      | Ret true => Ret true
      | Ret false => any_ge num_qubits rest
      end
  end.

(** [xs[i]] where the source has made sure the list is long enough. *)
Definition at_ (xs : list pyval) (i : nat) : pyval := nth i xs PNone.

(** The body of the gate loop of [transpile_circuit]. *)
Definition convert_step (num_qubits : pyval) (circuit : list sdk_call)
    (gate : Transpile.gate) : res (list sdk_call) :=
  match Transpile.name gate with
  | None => Raise (KeyError "name")
  | Some name =>
      let gate_name := lower name in
      let qubits := default [] (Transpile.qubits gate) in
      let parameters := default [] (Transpile.parameters gate) in
      let emit c := Ret (circuit ++ [c])%list in
      invalid ← (match qubits with [] => Ret true | _ => any_ge num_qubits qubits end);
      if (invalid : bool) then
        (* app.logger.warning(f"Skipping gate ... due to invalid qubit index") *)
        Ret circuit
      else if String.eqb gate_name "h" then emit (Call "h" [at_ qubits 0])
      else if String.eqb gate_name "x" then emit (Call "x" [at_ qubits 0])
      else if String.eqb gate_name "y" then emit (Call "y" [at_ qubits 0])
      else if String.eqb gate_name "z" then emit (Call "z" [at_ qubits 0])
      else if String.eqb gate_name "s" then emit (Call "s" [at_ qubits 0])
      else if String.eqb gate_name "sdg" then emit (Call "sdg" [at_ qubits 0])
      else if String.eqb gate_name "t" then emit (Call "t" [at_ qubits 0])
      else if String.eqb gate_name "tdg" then emit (Call "tdg" [at_ qubits 0])
      else if String.eqb gate_name "rx" then
        match parameters with
        | [] => Ret circuit
        | _ => emit (Call "rx" [at_ parameters 0; at_ qubits 0])
        end
      else if String.eqb gate_name "ry" then
        match parameters with
        | [] => Ret circuit
        | _ => emit (Call "ry" [at_ parameters 0; at_ qubits 0])
        end
      else if String.eqb gate_name "rz" then
        match parameters with
        | [] => Ret circuit
        | _ => emit (Call "rz" [at_ parameters 0; at_ qubits 0])
        end
      else if String.eqb gate_name "u3" then
        if Nat.eqb (length parameters) 3 then
          emit (Call "u" [at_ parameters 0; at_ parameters 1; at_ parameters 2; at_ qubits 0])
        else Ret circuit
      else if String.eqb gate_name "cx" then
        if Nat.eqb (length qubits) 2 then emit (Call "cx" [at_ qubits 0; at_ qubits 1])
        else Ret circuit
      else if String.eqb gate_name "cy" then
        if Nat.eqb (length qubits) 2 then emit (Call "cy" [at_ qubits 0; at_ qubits 1])
        else Ret circuit
      else if String.eqb gate_name "cz" then
        if Nat.eqb (length qubits) 2 then emit (Call "cz" [at_ qubits 0; at_ qubits 1])
        else Ret circuit
      else if String.eqb gate_name "swap" then
        if Nat.eqb (length qubits) 2 then emit (Call "swap" [at_ qubits 0; at_ qubits 1])
        else Ret circuit
      else if String.eqb gate_name "ccx" then
        if Nat.eqb (length qubits) 3 then
          emit (Call "ccx" [at_ qubits 0; at_ qubits 1; at_ qubits 2])
        else Ret circuit
      else if String.eqb gate_name "measure" then
        emit (Call "measure" [at_ qubits 0; at_ qubits 0])
      else
        (* app.logger.warning(f"Unsupported gate type encountered ...") *)
        Ret circuit
  end.

(** Step 1 of [transpile_circuit]: the editor's gates as Qiskit calls. *)
Definition convert_gates (num_qubits : pyval) (gates : list Transpile.gate)
  : res (list sdk_call) :=
  for_each (convert_step num_qubits) [] gates.

(** [POST /transpile_circuit]. *)
Definition transpile_circuit (w : world) (data : Transpile.payload) : response :=
  let target_backend_name := Transpile.target_backend_name data in
  let num_qubits := Transpile.num_qubits data in
  let missing :=
    Response (mk [("error", PStr "Missing 'circuit', 'target_backend_name', or 'num_qubits' in payload")])
             400 in
  match Transpile.circuit data with
  | None => missing
  | Some gates =>
      if negb (truthy target_backend_name) || bool_decide (num_qubits = PNone) then missing
      else
        let attempt : res response :=
          _ ← sdk w "QuantumCircuit" [] [num_qubits; num_qubits];
          qiskit_circuit ← convert_gates num_qubits gates;
          let transpile_with (target_qiskit_backend : string) : res response :=
            transpiled_circuit ← sdk w "transpile" qiskit_circuit
                                     [PData target_qiskit_backend; PInt 3];
            original_gate_count ← sdk w "size" qiskit_circuit [];
            transpiled_gate_count ← sdk w "size" qiskit_circuit [PData transpiled_circuit];
            original_depth ← sdk w "depth" qiskit_circuit [];
            transpiled_depth ← sdk w "depth" qiskit_circuit [PData transpiled_circuit];
            transpiled_qasm_code ← sdk w "qasm" qiskit_circuit [PData transpiled_circuit];
            Ret (Response
                   (mk [("transpiled_circuit_qasm", PData transpiled_qasm_code);
                        ("original_gate_count", PData original_gate_count);
                        ("transpiled_gate_count", PData transpiled_gate_count);
                        ("original_depth", PData original_depth);
                        ("transpiled_depth", PData transpiled_depth);
                        ("message", PStr "Circuit transpiled successfully!")])
                   200) in
          if bool_decide (target_backend_name = PStr "aer_qasm_simulator") then
            backend ← sdk w "AerSimulator" [] []; transpile_with backend
          else if bool_decide (target_backend_name = PStr "aer_statevector_simulator") then
            backend ← sdk w "AerSimulator" [] [PStr "statevector"]; transpile_with backend
          else
            Ret (Response
                   (mk [("error", PStr ("Unsupported target backend for transpilation: "
                                        ++ py_str target_backend_name))])
                   400) in
        match attempt with
        | Ret resp => resp
        | Raise e =>
            Response (mk [("error", PStr ("Failed to transpile circuit: " ++ exn_str e))]) 500
        end
  end.

(** The arguments of a Qiskit call that name qubits (or classical bits): all
    of them, after the angles of a rotation. *)
Definition qubit_args (c : sdk_call) : list pyval :=
  match c with
  | Call m args =>
      if String.eqb m "rx" || String.eqb m "ry" || String.eqb m "rz" then drop 1 args
      else if String.eqb m "u" then drop 3 args
      else args
  end.

(** ** google_backend.py *)

Module Google.

(** The loop body of [run_google]: the calls so far and the keys of
    [measurement_keys].  Kinds are compared as they are written. *)
Definition build_step (num_qubits : Z) (st : list sdk_call * list pyval)
    (gate_info : gate_info) : res (list sdk_call * list pyval) :=
  let '(circuit, measurement_keys) := st in
  let gate_type := G.gate gate_info in
  let target := get (G.target gate_info) in
  let control := get (G.control gate_info) in
  let emit c := Ret ((circuit ++ [c])%list, measurement_keys) in
  target_qubit ← (if bool_decide (target = PNone) then Ret PNone
                  else Cirq.qubit_at num_qubits target);
  control_qubit ← (if bool_decide (control = PNone) then Ret PNone
                   else Cirq.qubit_at num_qubits control);
  if String.eqb gate_type "H" then emit (Call "H" [target_qubit])
  else if String.eqb gate_type "X" then emit (Call "X" [target_qubit])
  else if String.eqb gate_type "Y" then emit (Call "Y" [target_qubit])
  else if String.eqb gate_type "Z" then emit (Call "Z" [target_qubit])
  else if String.eqb gate_type "S" then emit (Call "S" [target_qubit])
  else if String.eqb gate_type "SDG" then emit (Call "S**-1" [target_qubit])
  else if String.eqb gate_type "T" then emit (Call "T" [target_qubit])
  else if String.eqb gate_type "TDG" then emit (Call "T**-1" [target_qubit])
  else if String.eqb gate_type "RX" then
    emit (Call "rx" [dget_or (params_or_empty gate_info) "theta" (PInt 0); target_qubit])
  else if String.eqb gate_type "RY" then
    emit (Call "ry" [dget_or (params_or_empty gate_info) "theta" (PInt 0); target_qubit])
  else if String.eqb gate_type "RZ" then
    emit (Call "rz" [dget_or (params_or_empty gate_info) "theta" (PInt 0); target_qubit])
  else if String.eqb gate_type "CX" then
    if bool_decide (control_qubit = PNone) then
      Raise (ValueError ("Control qubit not specified for " ++ gate_type ++ " gate."))
    else emit (Call "CNOT" [control_qubit; target_qubit])
  else if String.eqb gate_type "CCX" then
    let control1 := get (G.control1 gate_info) in
    let control2 := get (G.control2 gate_info) in
    if bool_decide (control1 = PNone) || bool_decide (control2 = PNone) then
      Raise (ValueError ("Both control qubits not specified for " ++ gate_type ++ " gate."))
    else
      q1 ← Cirq.qubit_at num_qubits control1;
      q2 ← Cirq.qubit_at num_qubits control2;
      emit (Call "CCNOT" [q1; q2; target_qubit])
  else if String.eqb gate_type "SWAP" then
    if bool_decide (control_qubit = PNone) then
      Raise (ValueError ("Second qubit not specified for " ++ gate_type ++ " gate."))
    else emit (Call "SWAP" [target_qubit; control_qubit])
  else if String.eqb gate_type "MEASURE" then
    let key := "q" ++ py_str target in
    Ret ((circuit ++ [Call "measure" [target_qubit; PStr key]])%list,
         (measurement_keys ++ [target])%list)
  else
    (* print(f"Warning: Unknown gate type {gate_type}. Skipping.") *)
    Ret (circuit, measurement_keys).

(** [run_google]; [num_qubits] is [circuit_data.get("qubits")] and [gates] is
    [circuit_data.get("gates", [])].  Nothing is caught: a failure is
    raised. *)
Definition run_google (w : world) (num_qubits : option Z) (gates : list gate_info)
  : res dict :=
  match num_qubits with
  | None => Raise (ValueError "Number of qubits must be specified in circuit_data.")
  | Some num_qubits =>
      '(circuit, measurement_keys) ← for_each (build_step num_qubits) ([], []) gates;
      match measurement_keys with
      | _ :: _ =>
          counts ← sdk w "cirq.run.Counter" circuit [PInt 1024];
          Ret (mk [("counts", PData counts)])
      | [] =>
          final_state ← sdk w "cirq.simulate.final_state_vector" circuit [];
          probabilities ← sdk w "probabilities" circuit [PData final_state];
          Ret (mk [("statevector", PData final_state);
                   ("probabilities", PData probabilities)])
      end
  end.

End Google.

(** Is some gate of the list a measurement, written in capitals? *)
Definition any_MEASURE (gates : list gate_info) : bool :=
  existsb (fun g => String.eqb (G.gate g) "MEASURE") gates.

(** Every qubit argument of the call is an integer below [n]. *)
Definition below (n : Z) (c : sdk_call) : Prop :=
  Forall (fun q => exists z, as_number q = Some z /\ z < n) (qubit_args c).


(** A gate of the editor on the given qubits, without parameters. *)
Definition editor_gate (name : string) (qubits : list Z) : Transpile.gate :=
  Transpile.Gate (Some name) (Some (map PInt qubits)) None.

(** * Properties *)

(** ** Loops *)

Lemma for_each_app {A S : Type} (body : S -> A -> res S) (st : S) (xs ys : list A) :
  for_each body st (xs ++ ys) =
  match for_each body st xs with
  | Ret st' => for_each body st' ys
  | Raise e => Raise e
  end.
Proof.
  revert st. induction xs as [|x xs IH]; intros st; simpl; [done|].
  destruct (body st x); [apply IH | done].
Qed.

(** A loop over a list that holds an element on which the body raises from
    every state does not return. *)
Lemma for_each_raises {A S : Type} (body : S -> A -> res S) (x : A) (xs : list A) :
  x ∈ xs ->
  (forall st, exists e, body st x = Raise e) ->
  forall st, exists e, for_each body st xs = Raise e.
Proof.
  intros Hin Hx. induction xs as [|y ys IH]; intros st.
  - by apply elem_of_nil in Hin.
  - simpl. apply elem_of_cons in Hin as [<-|Hin].
    + destruct (Hx st) as [e ->]. by exists e.
    + destruct (body st y) as [st'|e]; [by apply IH | by exists e].
Qed.

(** ** Gate kinds *)

Ltac split_kinds H :=
  unfold kind_in in H; simpl in H;
  repeat (apply orb_false_elim in H as [? H]).

Ltac use_kinds :=
  repeat match goal with
         | Hk : String.eqb _ _ = false |- _ => rewrite !Hk; clear Hk
         end.

Lemma braket_unknown_kind who circuit g t :
  kind_in common_kinds g = false ->
  G.target g = Some t ->
  Braket.build_step who circuit g =
  Raise (ValueError ("Unsupported gate type for " ++ who ++ " (Braket): " ++ lower (G.gate g))).
Proof.
  intros Hk Ht. split_kinds Hk. unfold Braket.build_step. rewrite Ht. simpl.
  by use_kinds.
Qed.

Lemma braket_unknown_kind_raises who circuit g :
  kind_in common_kinds g = false ->
  exists e, Braket.build_step who circuit g = Raise e.
Proof.
  intros Hk. destruct (G.target g) as [t|] eqn:Ht.
  - eexists. by apply braket_unknown_kind with (t := t).
  - unfold Braket.build_step. rewrite Ht. simpl. by eexists.
Qed.

Lemma pennylane_unknown_kind circuit g t :
  kind_in common_kinds g = false ->
  G.target g = Some t ->
  Pennylane.build_step circuit g =
  Raise (ValueError ("Unsupported gate type for PennyLane: " ++ lower (G.gate g))).
Proof.
  intros Hk Ht. split_kinds Hk. unfold Pennylane.build_step. rewrite Ht. simpl.
  by use_kinds.
Qed.

Lemma pennylane_unknown_kind_raises circuit g :
  kind_in common_kinds g = false ->
  exists e, Pennylane.build_step circuit g = Raise e.
Proof.
  intros Hk. destruct (G.target g) as [t|] eqn:Ht.
  - eexists. by apply pennylane_unknown_kind with (t := t).
  - unfold Pennylane.build_step. rewrite Ht. simpl. by eexists.
Qed.

Lemma quantinuum_unknown_kind circuit g :
  kind_in common_kinds g = false ->
  Quantinuum.build_step circuit g =
  Raise (ValueError ("Unsupported gate type for Quantinuum (Azure Quantum): "
                     ++ lower (G.gate g))).
Proof.
  intros Hk. split_kinds Hk. unfold Quantinuum.build_step. by use_kinds.
Qed.

Lemma cirq_unknown_kind n circuit g t q :
  kind_in common_kinds g = false ->
  G.target g = Some t ->
  Cirq.qubit_at n t = Ret q ->
  Cirq.build_step n circuit g =
  Raise (ValueError ("Unsupported gate type for Cirq: " ++ lower (G.gate g))).
Proof.
  intros Hk Ht Hq. split_kinds Hk. unfold Cirq.build_step. rewrite Ht. simpl.
  rewrite Hq. simpl. by use_kinds.
Qed.

Lemma cirq_unknown_kind_raises n circuit g :
  kind_in common_kinds g = false ->
  exists e, Cirq.build_step n circuit g = Raise e.
Proof.
  intros Hk. destruct (G.target g) as [t|] eqn:Ht.
  - destruct (Cirq.qubit_at n t) as [q|e] eqn:Hq.
    + eexists. by apply cirq_unknown_kind with (t := t) (q := q).
    + unfold Cirq.build_step. rewrite Ht. simpl. rewrite Hq. simpl. by eexists.
  - unfold Cirq.build_step. rewrite Ht. simpl. by eexists.
Qed.

Lemma ibm_unknown_kind n st g :
  kind_in common_kinds g = false ->
  Ibm.build_step n st g = Ret st.
Proof.
  intros Hk. split_kinds Hk. unfold Ibm.build_step. destruct st as [circuit ncl].
  by use_kinds.
Qed.

Lemma aer_unknown_kind st g :
  kind_in (common_kinds ++ aer_only_kinds) g = false ->
  (get (G.target g) = PNone \/ is_int (get (G.target g)) = true) ->
  (get (G.control g) = PNone \/ is_int (get (G.control g)) = true) ->
  Aer.build_step st g = Ret st.
Proof.
  intros Hk Ht Hc. split_kinds Hk. unfold Aer.build_step. destruct st as [circuit m].
  assert (negb (bool_decide (get (G.target g) = PNone)) && negb (is_int (get (G.target g)))
          = false) as ->.
  { destruct Ht as [->| ->]; [done | by rewrite andb_false_r]. }
  assert (negb (bool_decide (get (G.control g) = PNone)) && negb (is_int (get (G.control g)))
          = false) as ->.
  { destruct Hc as [->| ->]; [done | by rewrite andb_false_r]. }
  by use_kinds.
Qed.

(** Skipping one step of a loop whose body leaves the state as it is. *)
Lemma for_each_skip {A S : Type} (body : S -> A -> res S) (x : A) (pre post : list A) :
  (forall st, body st x = Ret st) ->
  forall st, for_each body st (pre ++ x :: post) = for_each body st (pre ++ post).
Proof.
  intros Hx st. rewrite !for_each_app.
  destruct (for_each body st pre) as [st'|e]; [|done].
  simpl. by rewrite Hx.
Qed.

(** Reaching a step that raises. *)
Lemma for_each_reach {A S : Type} (body : S -> A -> res S) (x : A) (pre post : list A)
    (st st' : S) (e : pyexn) :
  for_each body st pre = Ret st' ->
  body st' x = Raise e ->
  for_each body st (pre ++ x :: post) = Raise e.
Proof. intros Hpre Hx. rewrite for_each_app, Hpre. simpl. by rewrite Hx. Qed.

(** C5 (as amended): a gate whose kind no branch recognizes stops the
    translation of the Cirq, IonQ, Rigetti, PennyLane and Quantinuum adapters,
    which never return a circuit for a gate list that holds one; when the gates
    before it translate and its target is there (for Cirq: is a valid position)
    the failure is the [ValueError] that names the lower-cased kind.  The IBM
    and Aer adapters print a warning, skip the gate and translate the rest. *)
Theorem unknown_gate_kind_by_adapter (q : Z) (pre post : list gate_info) (g : gate_info) :
  kind_in common_kinds g = false ->
  let cd := G.CircuitData q (pre ++ g :: post) in
  let before := G.CircuitData q pre in
  let kind := lower (G.gate g) in
  ((exists e, Cirq._build_cirq_circuit cd = Raise e) /\
   (exists e, Braket._build_braket_circuit cd = Raise e) /\
   (exists e, Braket._build_braket_circuit_rigetti cd = Raise e) /\
   (exists e, Pennylane.quantum_program_gates cd = Raise e) /\
   (exists e, Quantinuum._build_qiskit_circuit_quantinuum cd = Raise e))
  /\
  (forall t, G.target g = Some t ->
     ((exists c, Braket._build_braket_circuit before = Ret c) ->
      Braket._build_braket_circuit cd =
      Raise (ValueError ("Unsupported gate type for IonQ (Braket): " ++ kind))) /\
     ((exists c, Braket._build_braket_circuit_rigetti before = Ret c) ->
      Braket._build_braket_circuit_rigetti cd =
      Raise (ValueError ("Unsupported gate type for Rigetti (Braket): " ++ kind))) /\
     ((exists c, Pennylane.quantum_program_gates before = Ret c) ->
      Pennylane.quantum_program_gates cd =
      Raise (ValueError ("Unsupported gate type for PennyLane: " ++ kind))) /\
     ((exists c, Cirq._build_cirq_circuit before = Ret c) ->
      (exists x, Cirq.qubit_at q t = Ret x) ->
      Cirq._build_cirq_circuit cd =
      Raise (ValueError ("Unsupported gate type for Cirq: " ++ kind))))
  /\
  ((exists c, Quantinuum._build_qiskit_circuit_quantinuum before = Ret c) ->
   Quantinuum._build_qiskit_circuit_quantinuum cd =
   Raise (ValueError ("Unsupported gate type for Quantinuum (Azure Quantum): " ++ kind)))
  /\
  Ibm.build_circuit cd = Ibm.build_circuit (G.CircuitData q (pre ++ post))
  /\
  (kind_in aer_only_kinds g = false ->
   (get (G.target g) = PNone \/ is_int (get (G.target g)) = true) ->
   (get (G.control g) = PNone \/ is_int (get (G.control g)) = true) ->
   Aer._build_qiskit_circuit_aer cd =
   Aer._build_qiskit_circuit_aer (G.CircuitData q (pre ++ post))).
Proof.
  intros Hk cd before kind.
  assert (Hin : g ∈ (pre ++ g :: post)%list) by (apply elem_of_app; right; left).
  split; [|split; [|split; [|split]]].
  - repeat split.
    + apply (for_each_raises _ g); [done|]. intros st. by apply cirq_unknown_kind_raises.
    + apply (for_each_raises _ g); [done|]. intros st. by apply braket_unknown_kind_raises.
    + apply (for_each_raises _ g); [done|]. intros st. by apply braket_unknown_kind_raises.
    + apply (for_each_raises _ g); [done|]. intros st. by apply pennylane_unknown_kind_raises.
    + apply (for_each_raises _ g); [done|]. intros st. eexists.
      by apply quantinuum_unknown_kind.
  - intros t Ht. repeat split.
    + intros [c Hc]. eapply for_each_reach; [exact Hc|]. by eapply braket_unknown_kind.
    + intros [c Hc]. eapply for_each_reach; [exact Hc|]. by eapply braket_unknown_kind.
    + intros [c Hc]. eapply for_each_reach; [exact Hc|]. by eapply pennylane_unknown_kind.
    + intros [c Hc] [x Hx]. eapply for_each_reach; [exact Hc|].
      by eapply cirq_unknown_kind.
  - intros [c Hc]. eapply for_each_reach; [exact Hc|]. by apply quantinuum_unknown_kind.
  - apply for_each_skip. intros st. by apply ibm_unknown_kind.
  - intros Ha Ht Hc. apply for_each_skip. intros st. apply aer_unknown_kind; [|done..].
    unfold kind_in in *. rewrite existsb_app. by rewrite Hk, Ha.
Qed.

Lemma unknown_gate_kind_by_adapter_witness :
  kind_in common_kinds (gate_on "FOO" 0) = false /\
  Cirq._build_cirq_circuit (G.CircuitData 1 [gate_on "h" 0; gate_on "FOO" 0; gate_on "x" 0])
  = Raise (ValueError "Unsupported gate type for Cirq: foo") /\
  Ibm.build_circuit (G.CircuitData 1 [gate_on "h" 0; gate_on "FOO" 0; gate_on "x" 0])
  = Ibm.build_circuit (G.CircuitData 1 [gate_on "h" 0; gate_on "x" 0]).
Proof.
  assert (Hk : kind_in common_kinds (gate_on "FOO" 0) = false) by reflexivity.
  pose proof (unknown_gate_kind_by_adapter 1 [gate_on "h" 0] [gate_on "x" 0]
                (gate_on "FOO" 0) Hk) as (_ & Hnamed & _ & Hibm & _).
  split; [exact Hk|]. split; [|exact Hibm].
  apply (Hnamed (PInt 0) eq_refl).
  - eexists. reflexivity.
  - eexists. reflexivity.
Defined.

(** C5 as stated fails on the Aer adapter: the unknown gate is skipped, the
    translation succeeds with the remaining gate, and the runner executes
    what is left. *)
Lemma aer_skips_unknown_gate :
  kind_in (common_kinds ++ aer_only_kinds) (gate_on "foo" 0) = false /\
  Aer._build_qiskit_circuit_aer (G.CircuitData 1 [gate_on "foo" 0; gate_on "h" 0])
  = Ret ([Call "h" [PInt 0]], false) /\
  (exists d, run_aer quiet_world (G.CircuitData 1 [gate_on "foo" 0; gate_on "h" 0])
                     (mk [("simulator_choice", PStr "aer_qasm_simulator")]) = Ret d
             /\ d !! "error" = None /\ present d "counts" = true).
Proof.
  split; [reflexivity|]. split; [reflexivity|].
  eexists. split; [reflexivity|]. split; reflexivity.
Qed.

(** Indexing the list of line qubits: a position from [-n] up to [-1] is
    accepted and counted from the end, anything outside [-n .. n-1] raises
    [IndexError]. *)
Lemma cirq_negative_target (n t : Z) :
  - n <= t < 0 -> Cirq.qubit_at n (PInt t) = Ret (PInt (n + t)).
Proof.
  intros H. unfold Cirq.qubit_at, list_index.
  replace (Z.max 0 n) with n by lia.
  destruct (Z.leb_spec 0 t); [lia|]. simpl.
  destruct (Z.leb_spec (- n) t), (Z.ltb_spec t 0); try lia. reflexivity.
Qed.

Lemma cirq_target_out_of_range (n t : Z) :
  t >= Z.max 0 n \/ t < - Z.max 0 n ->
  Cirq.qubit_at n (PInt t) = Raise (IndexError "list index out of range").
Proof.
  intros H. unfold Cirq.qubit_at, list_index.
  destruct (Z.leb_spec 0 t), (Z.ltb_spec t (Z.max 0 n)),
           (Z.leb_spec (- Z.max 0 n) t), (Z.ltb_spec t 0); simpl; try lia; reflexivity.
Qed.

(** C4: on the Cirq adapter a negative qubit index is not rejected: Python's
    list indexing counts it from the end, so the gate lands on another qubit
    and the run goes through without an error. *)
Theorem cirq_negative_index_wraps :
  Cirq._build_cirq_circuit (G.CircuitData 2 [gate_on "x" (-1)])
  = Ret [Call "X" [PInt 1]] /\
  Cirq._build_cirq_circuit (G.CircuitData 2 [gate_on "x" (-1)])
  = Cirq._build_cirq_circuit (G.CircuitData 2 [gate_on "x" 1]) /\
  (exists d, run_cirq quiet_world (G.CircuitData 2 [gate_on "x" (-1)]) ∅ = Ret d
             /\ d !! "error" = None) /\
  Aer._build_qiskit_circuit_aer (G.CircuitData 2 [gate_on "x" 7])
  = Ret ([Call "x" [PInt 7]], false).
Proof.
  split; [reflexivity|]. split; [reflexivity|]. split; [|reflexivity].
  eexists. split; reflexivity.
Qed.

(** C9: the Cirq and Quantinuum adapters read [gate_info["params"]["theta"]]
    and fail with a [KeyError] when the angle is missing, where the Aer, IBM,
    Braket and PennyLane adapters take [params.get("theta", 0)]. *)
Theorem missing_angle_fails_on_cirq_and_quantinuum :
  Cirq._build_cirq_circuit (G.CircuitData 1 [rx_without_theta]) = Raise (KeyError "theta") /\
  Quantinuum._build_qiskit_circuit_quantinuum (G.CircuitData 1 [rx_without_theta])
  = Raise (KeyError "theta") /\
  (forall w credentials,
     run_cirq w (G.CircuitData 1 [rx_without_theta]) credentials
     = Ret (mk [("error", PStr "'theta'"); ("backend_used", PStr "Cirq Local Simulator")])) /\
  Aer._build_qiskit_circuit_aer (G.CircuitData 1 [rx_without_theta])
  = Ret ([Call "rx" [PInt 0; PInt 0]], false) /\
  Braket._build_braket_circuit (G.CircuitData 1 [rx_without_theta])
  = Ret [Call "rx" [PInt 0; PInt 0]] /\
  Pennylane.quantum_program_gates (G.CircuitData 1 [rx_without_theta])
  = Ret [Call "RX" [PInt 0; PInt 0]] /\
  Ibm.build_circuit (G.CircuitData 1 [rx_without_theta])
  = Ret ([Call "rx" [PInt 0; PInt 0]], 0).
Proof. repeat split; reflexivity. Qed.

(** ** The results of the runners *)

Ltac close_shape :=
  repeat match goal with
  | H : Raise _ = Ret _ |- _ => discriminate H
  | H : false = true |- _ => discriminate H
  | H : Ret ?a = Ret ?b |- _ => injection H as H; first [subst b | subst a]
  end;
  lazymatch goal with
  | |- result_shape (<["error" := _]> _) => eapply shape_error; reflexivity
  | |- result_shape (<[_ := _]> (<[_ := _]> (<["counts" := PData _]> _))) =>
      eapply shape_counts; reflexivity
  | |- result_shape (<[_ := _]> (<[_ := _]> (<["counts" := PNone]> _))) =>
      eapply shape_state; reflexivity
  end.

Ltac open_runner H :=
  unfold try_except, mbind, res_bind, bind, counts_result in H;
  simpl existsb in H;
  repeat case_match; close_shape.

Lemma run_aer_shape w cd c d : run_aer w cd c = Ret d -> result_shape d.
Proof. unfold run_aer. intros H. open_runner H. Qed.

Lemma run_cirq_shape w cd c d : run_cirq w cd c = Ret d -> result_shape d.
Proof. unfold run_cirq. intros H. open_runner H. Qed.

Lemma run_ionq_shape w cd c d : run_ionq w cd c = Ret d -> result_shape d.
Proof. unfold run_ionq. intros H. open_runner H. Qed.

Lemma run_rigetti_shape w cd c d : run_rigetti w cd c = Ret d -> result_shape d.
Proof. unfold run_rigetti. intros H. open_runner H. Qed.

Lemma run_ibm_shape w cd c d : run_ibm w cd c = Ret d -> result_shape d.
Proof. unfold run_ibm. intros H. open_runner H. Qed.

Lemma run_pennylane_shape w cd c d : run_pennylane w cd c = Ret d -> result_shape d.
Proof. unfold run_pennylane. intros H. open_runner H. Qed.

Lemma run_quantinuum_shape w cd c d : run_quantinuum w cd c = Ret d -> result_shape d.
Proof. unfold run_quantinuum. intros H. open_runner H. Qed.

Lemma call_runner_shape w r cd c d : call_runner w r cd c = Ret d -> result_shape d.
Proof.
  destruct r; simpl;
    eauto using run_aer_shape, run_cirq_shape, run_ionq_shape, run_rigetti_shape,
                run_ibm_shape, run_pennylane_shape.
Qed.

(** What the shapes say about the keys the handler looks at. *)
Lemma shape_facts d :
  result_shape d ->
  exactly_one_output d = true /\
  d <> ∅ /\
  is_Some (d !! "backend_used") /\
  d !! "fallback_reason" = None /\
  d !! "original_backend_attempted" = None /\
  (has_key d "error" = true -> exists m, d !! "error" = Some (PStr m)).
Proof.
  intros [m b ->|b n c ->|b n s p ->].
  - repeat split; try reflexivity.
    + intros H. apply (f_equal (fun x => x !! "error")) in H. discriminate H.
    + by eexists.
    + intros _. by exists m.
  - repeat split; try reflexivity.
    + intros H. apply (f_equal (fun x => x !! "counts")) in H. discriminate H.
    + by eexists.
    + intros H. discriminate H.
  - repeat split; try reflexivity.
    + intros H. apply (f_equal (fun x => x !! "counts")) in H. discriminate H.
    + by eexists.
    + intros H. discriminate H.
Qed.

(** C3: whatever an adapter's runner returns holds exactly one of counts,
    statevector and error: counts and statevector never come together, and
    both are missing only from an error result. *)
Theorem runner_result_has_exactly_one_output
    (w : world) (run : circuit_data -> dict -> res dict)
    (circuit_data : circuit_data) (credentials d : dict) :
  In run (adapter_runners w) ->
  run circuit_data credentials = Ret d ->
  exactly_one_output d = true.
Proof.
  intros Hin Hrun. apply shape_facts.
  simpl in Hin.
  destruct Hin as [<-|[<-|[<-|[<-|[<-|[<-|[<-|[]]]]]]]];
    eauto using run_aer_shape, run_cirq_shape, run_ionq_shape, run_rigetti_shape,
                run_ibm_shape, run_pennylane_shape, run_quantinuum_shape.
Qed.

Lemma runner_result_has_exactly_one_output_witness :
  exactly_one_output cirq_state = true.
Proof.
  apply (runner_result_has_exactly_one_output quiet_world (run_cirq quiet_world) one_h ∅).
  - simpl. tauto.
  - vm_compute. reflexivity.
Defined.

(** ** The registry *)

Lemma BACKEND_MAP_entry key info :
  BACKEND_MAP !! key = Some info ->
  (B.provider_type info = "qpu" \/ B.provider_type info = "simulator") /\
  B.backend_name info <> "" /\ key <> "".
Proof.
  intros H. unfold BACKEND_MAP in H. apply elem_of_list_to_map_2 in H.
  repeat (apply elem_of_cons in H as [H|H];
          [injection H as -> ->; split; [auto | split; discriminate] |]).
  by apply elem_of_nil in H.
Qed.

Lemma backend_map_get_Some key info :
  backend_map_get key = Some info ->
  exists s, key = PStr s /\ BACKEND_MAP !! s = Some info.
Proof. destruct key; simpl; try discriminate. intros H. by eexists. Qed.

(** In the registry, "not a QPU" and "a simulator" are the same. *)
Lemma invalid_fallback_iff key :
  invalid_fallback (backend_map_get key) = negb (resolves_to_simulator key).
Proof.
  unfold invalid_fallback, resolves_to_simulator.
  destruct (backend_map_get key) as [info|] eqn:H; [|done].
  apply backend_map_get_Some in H as (s & _ & H).
  apply BACKEND_MAP_entry in H as [[-> | ->] _]; reflexivity.
Qed.

(** ** Runners return *)

Lemma try_except_returns {A} (body : res A) (handler : pyexn -> res A) :
  (forall e, exists a, handler e = Ret a) ->
  exists a, try_except body handler = Ret a.
Proof. intros H. destruct body as [a|e]; simpl; [by exists a | apply H]. Qed.

(** Handed a bundle that names a backend, a registered runner returns a
    result; it raises nothing. *)
Lemma call_runner_returns w r cd c :
  truthy (dget c "backend_name") = true ->
  exists d, call_runner w r cd c = Ret d.
Proof.
  intros Ht. destruct r; simpl.
  - apply try_except_returns. intros e. by eexists.
  - unfold run_ionq. rewrite Ht. simpl. apply try_except_returns. intros e. by eexists.
  - unfold run_rigetti. rewrite Ht. simpl. apply try_except_returns. intros e. by eexists.
  - apply try_except_returns. intros e. by eexists.
  - apply try_except_returns. intros e. destruct (is_ImportError e); by eexists.
  - apply try_except_returns. intros e. by eexists.
Qed.

(** ** The heap of bundles *)

Lemma deref_fresh h d store log :
  deref (State (h ++ [d]) store log) (length h) = d.
Proof. unfold deref. simpl. by rewrite list_lookup_middle. Qed.

Lemma setitem_fresh h d store log k v :
  setitem (length h) k v (State (h ++ [d]) store log)
  = State (h ++ [<[k := v]> d]) store log.
Proof.
  unfold setitem. rewrite deref_fresh. simpl. f_equal.
  rewrite insert_app_r_alt by lia. by rewrite Nat.sub_diag.
Qed.

(** Resolving and preparing a bundle allocates one new object, leaves the
    rest of the process state alone, and the object names the backend. *)
Lemma prepare_credentials_spec w info shots sim st :
  exists base,
    prepare_credentials w info shots sim st =
    (length (heap st),
     State (heap st ++ [<["simulator_choice" := sim]>
                          (<["shots" := shots]>
                             (<["backend_name" := PStr (B.backend_name info)]> base))])
           (_in_memory_credentials_store st) (calls st)).
Proof.
  unfold prepare_credentials.
  destruct (_get_credentials_for_provider w (B.provider info) st) as [c st0] eqn:Hget.
  assert (exists base, c = length (heap st) /\
            st0 = State (heap st ++ [base]) (_in_memory_credentials_store st) (calls st))
    as (base & -> & ->).
  { unfold _get_credentials_for_provider, alloc in Hget.
    destruct (_in_memory_credentials_store st !! B.provider info);
      injection Hget as <- <-; by eexists. }
  exists base. by rewrite !setitem_fresh.
Qed.

Lemma prepared_bundle_names_backend (base : dict) sim shots name :
  name <> "" ->
  truthy (dget (<["simulator_choice" := sim]>
                  (<["shots" := shots]> (<["backend_name" := PStr name]> base)))
               "backend_name") = true.
Proof.
  intros Hn. unfold dget.
  rewrite lookup_insert_ne by done. rewrite lookup_insert_ne by done.
  rewrite lookup_insert_eq. simpl.
  destruct (String.eqb_spec name ""); [done | reflexivity].
Qed.

(** ** The paths through the /run handler *)

Lemma ditem_shape d :
  result_shape d -> ditem d "backend_used" = Ret (dget d "backend_used").
Proof.
  intros Hs. apply shape_facts in Hs as (_ & _ & [v Hv] & _).
  unfold ditem, dget. by rewrite Hv.
Qed.

(** Every run of the handler takes one of these paths.  Either no runner is
    invoked; or the payload names a registered backend and a circuit, the
    primary runner returns a result [d1], and then: [d1] is no error and is the
    answer; or it is an error and no fallback is due; or the fallback choice is
    rejected; or the fallback runner is invoked once, returns [d2], and the
    answer is built from both. *)
Lemma run_circuit_paths (w : world) (data : option R.payload) (st : state) :
  let out := run_circuit w data st in
  (calls out.2 = calls st /\
   forall d key info cd,
     data = Some d -> R.provider d = Some (PStr key) -> BACKEND_MAP !! key = Some info ->
     R.circuit d = Some cd -> False)
  \/
  exists d key info cd k1 d1,
    data = Some d /\ R.provider d = Some (PStr key) /\ BACKEND_MAP !! key = Some info /\
    R.circuit d = Some cd /\
    call_runner w (B.runner info) cd k1 = Ret d1 /\ result_shape d1 /\
    ((is_error_result d1 = false /\
      out.1 = Ret (Response d1 200) /\
      calls out.2 = (calls st ++ [(B.runner info, k1)])%list)
     \/
     (is_error_result d1 = true /\
      is_qpu_entry info && truthy (flag_of d) = false /\
      out.1 = Ret (plain_failure d1) /\
      calls out.2 = (calls st ++ [(B.runner info, k1)])%list)
     \/
     (is_error_result d1 = true /\
      is_qpu_entry info && truthy (flag_of d) = true /\
      invalid_fallback (backend_map_get (simulator_choice_of d)) = true /\
      out.1 = Ret (rejected_fallback (PStr key) (simulator_choice_of d) d1) /\
      calls out.2 = (calls st ++ [(B.runner info, k1)])%list)
     \/
     (exists fb k2 d2,
        is_error_result d1 = true /\
        is_qpu_entry info && truthy (flag_of d) = true /\
        backend_map_get (simulator_choice_of d) = Some fb /\
        is_qpu_entry fb = false /\
        call_runner w (B.runner fb) cd k2 = Ret d2 /\ result_shape d2 /\
        calls out.2 = (calls st ++ [(B.runner info, k1); (B.runner fb, k2)])%list /\
        ((is_error_result d2 = true /\
          out.1 = Ret (both_failed (PStr key) (B.backend_name fb) d1 d2))
         \/
         (is_error_result d2 = false /\
          out.1 = Ret (fallback_success (PStr key) d1 d2))))).
Proof.
  unfold run_circuit.
  destruct data as [d|]; [|by left].
  destruct (R.circuit d) as [cd|] eqn:Hcd.
  2: { left. split; [done|]. intros ???? [= <-] _ _ H. by rewrite Hcd in H. }
  destruct (truthy (get (R.provider d))) eqn:Htruthy; simpl.
  2: { left. split; [done|]. intros ???? [= <-] Hp Hreg _. rewrite Hp in Htruthy.
       apply BACKEND_MAP_entry in Hreg as (_ & _ & Hne). simpl in Htruthy.
       destruct (String.eqb_spec key ""); [done | discriminate]. }
  destruct (backend_map_get (get (R.provider d))) as [info|] eqn:Hinfo.
  2: { left. split; [done|]. intros ???? [= <-] Hp Hreg _. rewrite Hp in Hinfo.
       simpl in Hinfo. by rewrite Hreg in Hinfo. }
  pose proof Hinfo as Hinfo'.
  apply backend_map_get_Some in Hinfo' as (key & Hkey & Hreg).
  assert (Hprov : R.provider d = Some (PStr key)).
  { unfold get in Hkey. destruct (R.provider d); simpl in Hkey; [by subst | done]. }
  rewrite Hkey.
  pose proof (BACKEND_MAP_entry _ _ Hreg) as (_ & Hname & _).
  destruct (prepare_credentials_spec w info (default (PInt 1024) (R.shots d))
              (default (PStr "aer_qasm_simulator") (R.simulator_choice d)) st)
    as [base ->].
  unfold try_body, invoke. rewrite deref_fresh. simpl.
  set (k1 := <["simulator_choice" := _]> _).
  destruct (call_runner_returns w (B.runner info) cd k1) as [d1 Hd1].
  { by apply prepared_bundle_names_backend. }
  pose proof (call_runner_shape _ _ _ _ _ Hd1) as Hs1.
  rewrite Hd1. right. exists d, key, info, cd, k1, d1.
  do 6 (split; [done|]).
  destruct (is_error_result d1) eqn:He1; [|by left].
  right.
  fold (is_qpu_entry info). fold (flag_of d). fold (simulator_choice_of d).
  destruct (is_qpu_entry info && truthy (flag_of d)) eqn:Hq; [|by left].
  right. unfold fallback_after_error_result.
  destruct (backend_map_get (simulator_choice_of d)) as [fb|] eqn:Hfb; [|by left].
  fold (is_qpu_entry fb).
  destruct (is_qpu_entry fb) eqn:Hfq.
  { left. do 2 (split; [done|]). split; [|done]. unfold invalid_fallback.
    exact Hfq. }
  right.
  pose proof Hfb as Hfb'.
  apply backend_map_get_Some in Hfb' as (s & _ & Hfreg).
  pose proof (BACKEND_MAP_entry _ _ Hfreg) as (_ & Hfname & _).
  match goal with
  | |- context [prepare_credentials w fb ?sh ?sim ?st1] =>
      destruct (prepare_credentials_spec w fb sh sim st1) as [base2 ->]
  end.
  unfold invoke. simpl heap. rewrite deref_fresh. simpl.
  set (k2 := <["simulator_choice" := _]> _).
  destruct (call_runner_returns w (B.runner fb) cd k2) as [d2 Hd2].
  { by apply prepared_bundle_names_backend. }
  pose proof (call_runner_shape _ _ _ _ _ Hd2) as Hs2.
  rewrite Hd2. exists fb, k2, d2.
  do 6 (split; [done|]).
  destruct (is_error_result d2) eqn:He2.
  - split; [simpl; by rewrite <- app_assoc|]. by left.
  - rewrite (ditem_shape _ Hs2). simpl.
    split; [by rewrite <- app_assoc|]. by right.
Qed.

Lemma new_calls_app st st' extra :
  calls st' = (calls st ++ extra)%list -> new_calls st st' = extra.
Proof. unfold new_calls. intros ->. apply drop_app_length. Qed.

Lemma new_calls_none st st' : calls st' = calls st -> new_calls st st' = [].
Proof. unfold new_calls. intros ->. apply drop_all. Qed.

(** ** The fallback policy of /run *)

(** C6: a request invokes a runner at most twice, the calls it adds come
    after those already logged, and a fallback that fails ends the request:
    the answer is the combined failure, status 500. *)
Theorem at_most_one_fallback (w : world) (data : option R.payload) (st : state) :
  let out := run_circuit w data st in
  (exists extra, calls out.2 = (calls st ++ extra)%list /\ (length extra <= 2)%nat)
  /\
  (forall d cd r1 c1 r2 c2 d1 d2,
     data = Some d -> R.circuit d = Some cd ->
     new_calls st out.2 = [(r1, c1); (r2, c2)] ->
     call_runner w r1 cd c1 = Ret d1 ->
     call_runner w r2 cd c2 = Ret d2 ->
     is_error_result d2 = true ->
     exists fb,
       backend_map_get (simulator_choice_of d) = Some fb /\
       out.1 = Ret (both_failed (get (R.provider d)) (B.backend_name fb) d1 d2) /\
       status (both_failed (get (R.provider d)) (B.backend_name fb) d1 d2) = 500).
Proof.
  intros out. subst out.
  destruct (run_circuit_paths w data st)
    as [[Hc _]|(d & key & info & cd & k1 & d1 & -> & Hp & Hreg & Hcd & Hr1 & Hs1 & Hpath)];
    set (out := run_circuit w _ st) in *.
  { split; [exists []; rewrite app_nil_r; split; [done | simpl; lia]|].
    intros * _ _ Hn. by rewrite (new_calls_none _ _ Hc) in Hn. }
  destruct Hpath as [(_ & _ & Hc)|[(_ & _ & _ & Hc)|[(_ & _ & _ & _ & Hc)|
    (fb & k2 & d2 & He1 & Hq & Hfb & Hfq & Hr2 & Hs2 & Hc & Hout)]]].
  1-3: split; [eexists; split; [exact Hc | simpl; lia]|];
       intros * _ _ Hn; by rewrite (new_calls_app _ _ _ Hc) in Hn.
  split; [eexists; split; [exact Hc | simpl; lia]|].
  intros d' cd' r1 c1 r2 c2 d1' d2' [= <-] Hcd' Hn Hr1' Hr2' He2.
  rewrite Hcd in Hcd'. injection Hcd' as <-.
  rewrite (new_calls_app _ _ _ Hc) in Hn. injection Hn as <- <- <- <-.
  rewrite Hr1 in Hr1'. injection Hr1' as <-.
  rewrite Hr2 in Hr2'. injection Hr2' as <-.
  exists fb. split; [done|]. split; [|done].
  destruct Hout as [[_ Hout]|[He2' _]]; [|congruence].
  unfold get. by rewrite Hp.
Qed.



(** C1 (as amended): after a failed primary attempt the fallback runner is
    invoked exactly when the primary entry is a QPU, the caller's flag is
    truthy and the simulator choice (["aer_qasm_simulator"] when the payload
    names none) is a registry entry of type simulator; it is then invoked once
    and is that entry's runner.  When the primary is a QPU and the flag is set
    but the choice is null, unknown or a QPU, no fallback runner is invoked and
    the answer is the primary failure with the rejected choice named. *)
Theorem fallback_eligibility
    (w : world) (d : R.payload) (key : string) (info : B.backend_info)
    (cd : circuit_data) (st : state) (r1 : runner) (c1 : dict)
    (rest : list (runner * dict)) :
  let out := run_circuit w (Some d) st in
  let sim := simulator_choice_of d in
  R.provider d = Some (PStr key) ->
  BACKEND_MAP !! key = Some info ->
  R.circuit d = Some cd ->
  new_calls st out.2 = (r1, c1) :: rest ->
  failed (call_runner w r1 cd c1) = true ->
  (rest <> [] <->
   B.provider_type info = "qpu" /\ truthy (flag_of d) = true /\
   resolves_to_simulator sim = true)
  /\
  (rest <> [] ->
   exists fb c2, backend_map_get sim = Some fb /\ B.provider_type fb = "simulator" /\
                 rest = [(B.runner fb, c2)])
  /\
  (R.simulator_choice d = None ->
   sim = PStr "aer_qasm_simulator" /\ resolves_to_simulator sim = true)
  /\
  (B.provider_type info = "qpu" -> truthy (flag_of d) = true ->
   resolves_to_simulator sim = false ->
   rest = [] /\
   exists d1, call_runner w r1 cd c1 = Ret d1 /\
              out.1 = Ret (rejected_fallback (PStr key) sim d1)).
Proof.
  intros out sim Hp Hreg Hcd Hn Hfail. subst out.
  destruct (run_circuit_paths w (Some d) st)
    as [[Hc _]|(d' & key' & info' & cd' & k1 & d1 & [= <-] & Hp' & Hreg' & Hcd' & Hr1 & Hs1
                & Hpath)];
    set (out := run_circuit w _ st) in *.
  { by rewrite (new_calls_none _ _ Hc) in Hn. }
  rewrite Hcd in Hcd'. injection Hcd' as <-.
  rewrite Hp in Hp'. injection Hp' as <-.
  rewrite Hreg in Hreg'. injection Hreg' as <-.
  assert (Hqpu : is_qpu_entry info = true <-> B.provider_type info = "qpu").
  { unfold is_qpu_entry. apply String.eqb_eq. }
  assert (Hsame : forall extra, calls out.2 = (calls st ++ (B.runner info, k1) :: extra)%list ->
                                r1 = B.runner info /\ c1 = k1 /\ rest = extra).
  { intros extra Hc. rewrite (new_calls_app _ _ _ Hc) in Hn. by injection Hn as <- <- <-. }
  pose proof (invalid_fallback_iff sim) as Hinv. fold sim in Hpath.
  split; [|split; [|split]].
  4: { intros Hq Hf Hsim. apply Hqpu in Hq.
       destruct Hpath as [(He & _ & Hc)|[(_ & Hno & _ & Hc)|[(_ & _ & _ & Hout & Hc)|
         (fb & k2 & d2 & _ & _ & Hfb & Hfq & _)]]].
       - apply Hsame in Hc as (-> & -> & ->). rewrite Hr1 in Hfail. simpl in Hfail.
         congruence.
       - rewrite Hq, Hf in Hno. discriminate.
       - apply Hsame in Hc as (-> & -> & ->). split; [done|]. by exists d1.
       - rewrite Hfb in Hinv. simpl in Hinv. unfold is_qpu_entry in Hfq.
         rewrite Hfq, Hsim in Hinv. discriminate. }
  3: { intros Hnone. unfold sim, simulator_choice_of. rewrite Hnone. split; reflexivity. }
  - destruct Hpath as [(He & _ & Hc)|[(_ & Hno & _ & Hc)|[(_ & Hq & Hbad & _ & Hc)|
      (fb & k2 & d2 & _ & Hq & Hfb & Hfq & _ & _ & Hc & _)]]].
    + apply Hsame in Hc as (-> & -> & ->). rewrite Hr1 in Hfail. simpl in Hfail.
      congruence.
    + apply Hsame in Hc as (-> & -> & ->). split; [done|].
      intros (Hq & Hf & _). apply Hqpu in Hq. rewrite Hq, Hf in Hno. discriminate.
    + apply Hsame in Hc as (-> & -> & ->). split; [done|].
      intros (_ & _ & Hsim). rewrite Hinv, Hsim in Hbad. discriminate.
    + apply Hsame in Hc as (-> & -> & ->). split; [|done]. intros _.
      apply andb_true_iff in Hq as [Hq Hf]. split; [by apply Hqpu|]. split; [done|].
      rewrite Hfb in Hinv. simpl in Hinv. unfold is_qpu_entry in Hfq.
      rewrite Hfq in Hinv. by destruct (resolves_to_simulator sim).
  - intros Hne.
    destruct Hpath as [(_ & _ & Hc)|[(_ & _ & _ & Hc)|[(_ & _ & _ & _ & Hc)|
      (fb & k2 & d2 & _ & _ & Hfb & Hfq & _ & _ & Hc & _)]]].
    1-3: by apply Hsame in Hc as (_ & _ & ->).
    apply Hsame in Hc as (_ & _ & ->). exists fb, k2. split; [done|]. split; [|done].
    pose proof Hfb as Hfb'. apply backend_map_get_Some in Hfb' as (s & _ & Hs).
    apply BACKEND_MAP_entry in Hs as [[Hs|Hs] _]; [|done].
    unfold is_qpu_entry in Hfq. rewrite Hs in Hfq. discriminate.
Qed.

Lemma at_most_one_fallback_witness :
  exists fb,
    backend_map_get (simulator_choice_of (ionq_request one_h)) = Some fb /\
    (run_circuit broken_world (Some (ionq_request one_h)) initial_state).1
    = Ret (both_failed (get (R.provider (ionq_request one_h))) (B.backend_name fb)
                       ionq_failure aer_failure) /\
    status (both_failed (get (R.provider (ionq_request one_h))) (B.backend_name fb)
                        ionq_failure aer_failure) = 500.
Proof.
  apply (proj2 (at_most_one_fallback broken_world (Some (ionq_request one_h)) initial_state)
               (ionq_request one_h) one_h Run_ionq ionq_env_bundle Run_aer aer_bundle).
  - reflexivity.
  - reflexivity.
  - vm_compute. reflexivity.
  - vm_compute. reflexivity.
  - vm_compute. reflexivity.
  - vm_compute. reflexivity.
Defined.



Lemma fallback_eligibility_witness :
  exists fb c2,
    backend_map_get (simulator_choice_of (ionq_request one_h)) = Some fb /\
    B.provider_type fb = "simulator" /\
    [(Run_aer, aer_bundle)] = [(B.runner fb, c2)].
Proof.
  destruct (fallback_eligibility quiet_world (ionq_request one_h) "aws_ionq"
              (B.BackendInfo "ionq" Run_ionq "ionq/qpu" "qpu") one_h initial_state
              Run_ionq ionq_env_bundle [(Run_aer, aer_bundle)]) as (_ & Hone & _).
  - reflexivity.
  - vm_compute. reflexivity.
  - reflexivity.
  - vm_compute. reflexivity.
  - vm_compute. reflexivity.
  - apply Hone. discriminate.
Defined.

(** C1 as stated fails when the payload names no simulator: the choice
    defaults to ["aer_qasm_simulator"], and after the failed IonQ attempt the
    Aer runner is invoked. *)
Lemma absent_simulator_choice_still_falls_back :
  R.simulator_choice (ionq_request one_h) = None /\
  exists c1 c2 resp,
    run_circuit quiet_world (Some (ionq_request one_h)) initial_state
    = (Ret resp, State [c1; c2] ∅ [(Run_ionq, c1); (Run_aer, c2)]) /\
    failed (call_runner quiet_world Run_ionq one_h c1) = true /\
    status resp = 200.
Proof.
  split; [reflexivity|].
  eexists _, _, _. split; [vm_compute; reflexivity|]. split; reflexivity.
Qed.

(** The handler's own branch for a validation failure: had the runner let a
    [ValueError] through whose message names no credential or connection
    problem, the request would be answered 400 and no fallback runner
    invoked. *)
Lemma raised_validation_error_is_rejected w pk cd msg q flag sim shots st :
  mentions_credentials msg = false ->
  except_ValueError w pk cd msg q flag sim shots st =
  (Ret (Response (mk [("error", PStr ("Circuit validation error: " ++ msg));
                      ("backend_used", pk)]) 400), st).
Proof. intros H. unfold except_ValueError. by rewrite H. Qed.

(** A backend key that the registry does not know is answered 400 before any
    runner is looked at. *)
Lemma unknown_backend_key_is_rejected w d cd key st :
  R.provider d = Some (PStr key) -> key <> "" -> R.circuit d = Some cd ->
  BACKEND_MAP !! key = None ->
  run_circuit w (Some d) st =
  (Ret (Response (mk [("error", PStr ("Unsupported provider: " ++ key))]) 400), st).
Proof.
  intros Hp Hk Hcd Hno. unfold run_circuit, get. rewrite Hp, Hcd. simpl.
  destruct (String.eqb_spec key ""); [done|]. simpl. by rewrite Hno.
Qed.

Lemma run_ionq_unknown_gate w c d1 :
  call_runner w Run_ionq one_unknown_gate c = Ret d1 ->
  is_error_result d1 = true /\
  d1 !! "error" = Some (PStr "Unsupported gate type for IonQ (Braket): foo").
Proof.
  simpl. unfold run_ionq.
  destruct (negb (truthy (dget c "backend_name"))); [discriminate|].
  assert (Braket._build_braket_circuit one_unknown_gate
          = Raise (ValueError "Unsupported gate type for IonQ (Braket): foo")) as ->
    by reflexivity.
  simpl. intros [= <-]. split; [|reflexivity].
  unfold is_error_result. apply andb_true_iff. split; [|reflexivity].
  apply negb_true_iff, bool_decide_eq_false. intros H.
  apply (f_equal (fun x => x !! "error")) in H. discriminate H.
Qed.

(** C2: a gate kind that the IonQ translation rejects comes back from
    [run_ionq] as an error result like any other, so with the caller's flag
    set the handler goes on to invoke the Aer runner, whatever the SDKs do;
    with SDKs that answer, the request ends with status 200 and the
    validation message as [fallback_reason]. *)
Theorem validation_failure_still_falls_back (w : world) (st : state) :
  let out := run_circuit w (Some (ionq_request one_unknown_gate)) st in
  Braket._build_braket_circuit one_unknown_gate
  = Raise (ValueError "Unsupported gate type for IonQ (Braket): foo")
  /\
  (exists c1 c2 d1,
     new_calls st out.2 = [(Run_ionq, c1); (Run_aer, c2)] /\
     call_runner w Run_ionq one_unknown_gate c1 = Ret d1 /\
     d1 !! "error" = Some (PStr "Unsupported gate type for IonQ (Braket): foo"))
  /\
  (exists resp,
     (run_circuit quiet_world (Some (ionq_request one_unknown_gate)) initial_state).1
     = Ret resp /\
     status resp = 200 /\
     body resp !! "fallback_reason"
     = Some (PStr "Unsupported gate type for IonQ (Braket): foo")).
Proof.
  intros out. subst out. split; [reflexivity|]. split.
  2: { eexists. split; [vm_compute; reflexivity|]. split; reflexivity. }
  destruct (run_circuit_paths w (Some (ionq_request one_unknown_gate)) st)
    as [[_ Hno]|(d & key & info & cd & k1 & d1 & [= <-] & Hp & Hreg & Hcd & Hr1 & Hs1
                 & Hpath)];
    set (out := run_circuit w _ st) in *.
  { exfalso. by eapply (Hno _ "aws_ionq"). }
  injection Hp as <-. injection Hcd as <-.
  change (BACKEND_MAP !! "aws_ionq") with
    (Some (B.BackendInfo "ionq" Run_ionq "ionq/qpu" "qpu")) in Hreg.
  injection Hreg as <-. simpl in Hr1, Hpath.
  destruct (run_ionq_unknown_gate w k1 d1 Hr1) as [He1 Herr].
  destruct Hpath as [(He & _)|[(_ & Hq & _)|[(_ & _ & Hbad & _)|
    (fb & k2 & d2 & _ & _ & Hfb & _ & _ & _ & Hc & _)]]].
  - congruence.
  - discriminate Hq.
  - discriminate Hbad.
  - change (backend_map_get (simulator_choice_of (ionq_request one_unknown_gate)))
      with (Some (B.BackendInfo "aer" Run_aer "aer_qasm_simulator" "simulator")) in Hfb.
    injection Hfb as <-. simpl in Hc.
    exists k1, k2, d1. split; [by apply new_calls_app | done].
Qed.

(** ** The credential store *)

Lemma grows_refl st : grows st st.
Proof. split; [done|]. exists []. by rewrite app_nil_r. Qed.

Lemma grows_trans st1 st2 st3 : grows st1 st2 -> grows st2 st3 -> grows st1 st3.
Proof.
  intros [Hs1 [c1 Hh1]] [Hs2 [c2 Hh2]]. split; [congruence|].
  exists (c1 ++ c2)%list. by rewrite Hh2, Hh1, app_assoc.
Qed.

Lemma grows_log st log :
  grows st (State (heap st) (_in_memory_credentials_store st) log).
Proof. split; [done|]. exists []. simpl. by rewrite app_nil_r. Qed.

Lemma prepare_credentials_grows w info shots sim st :
  grows st (prepare_credentials w info shots sim st).2.
Proof.
  destruct (prepare_credentials_spec w info shots sim st) as [base ->].
  split; [done|]. by eexists.
Qed.

Lemma invoke_grows w r cd c st : grows st (invoke w r cd c st).2.
Proof. unfold invoke. simpl. apply grows_log. Qed.

Ltac chain_grows :=
  first [ apply grows_refl | eapply grows_trans; [eassumption|]; chain_grows ].

Ltac step_grows :=
  match goal with
  | |- context [prepare_credentials ?w ?i ?s ?k ?st] =>
      let H := fresh "Hg" in
      pose proof (prepare_credentials_grows w i s k st) as H;
      destruct (prepare_credentials w i s k st) as [? ?]; simpl in H
  | |- context [invoke ?w ?r ?cd ?c ?st] =>
      let H := fresh "Hg" in
      pose proof (invoke_grows w r cd c st) as H;
      destruct (invoke w r cd c st) as [[?|?] ?]; simpl in H
  | |- context [match ?x with _ => _ end] => destruct x
  end.

Lemma fallback_after_error_result_grows w pk cd result sim shots st :
  grows st (fallback_after_error_result w pk cd result sim shots st).2.
Proof.
  unfold fallback_after_error_result, mbind, res_bind, bind.
  repeat step_grows; simpl; chain_grows.
Qed.

Lemma except_ValueError_grows w pk cd msg q flag sim shots st :
  grows st (except_ValueError w pk cd msg q flag sim shots st).2.
Proof.
  unfold except_ValueError, mbind, res_bind, bind.
  repeat step_grows; simpl; chain_grows.
Qed.

Lemma try_body_grows w pk cd r c q flag sim shots st :
  grows st (try_body w pk cd r c q flag sim shots st).2.
Proof.
  unfold try_body.
  pose proof (invoke_grows w r cd c st) as Hg.
  destruct (invoke w r cd c st) as [[result|e] st1]; simpl in Hg; [|done].
  destruct (is_error_result result); [|done].
  destruct (q && truthy flag); [|done].
  eapply grows_trans; [exact Hg|]. apply fallback_after_error_result_grows.
Qed.

(** A run of the handler only adds cells to the heap. *)
Lemma run_circuit_grows w data st : grows st (run_circuit w data st).2.
Proof.
  unfold run_circuit.
  destruct data as [d|]; [|apply grows_refl].
  destruct (R.circuit d) as [cd|]; [|apply grows_refl].
  destruct (negb (truthy (get (R.provider d)))); [apply grows_refl|].
  destruct (backend_map_get (get (R.provider d))) as [info|]; [|apply grows_refl].
  step_grows.
  match goal with
  | |- context [try_body ?w ?pk ?cd ?r ?c ?q ?f ?sim ?sh ?st1] =>
      pose proof (try_body_grows w pk cd r c q f sim sh st1) as Hg2;
      destruct (try_body w pk cd r c q f sim sh st1) as [[resp|e] st2]; simpl in Hg2
  end.
  - simpl. chain_grows.
  - destruct (is_ValueError e); [|simpl; chain_grows].
    eapply grows_trans; [exact Hg|]. eapply grows_trans; [exact Hg2|].
    apply except_ValueError_grows.
Qed.

Lemma grows_deref st st' r :
  grows st st' -> (r < length (heap st))%nat -> deref st' r = deref st r.
Proof. intros [_ [cells Hh]] Hr. unfold deref. rewrite Hh. by rewrite lookup_app_l. Qed.

Lemma grows_store_ok st st' : grows st st' -> store_ok st -> store_ok st'.
Proof.
  intros [Hs [cells Hh]] Hok. unfold store_ok in *. rewrite Hs, Hh.
  eapply map_Forall_impl; [exact Hok|]. intros k r Hr. simpl in Hr |- *.
  rewrite length_app. lia.
Qed.

(** The invariant holds when the server starts and is kept by
    [/save_credentials]. *)
Lemma store_ok_initial : store_ok initial_state.
Proof. unfold store_ok, initial_state. simpl. apply map_Forall_empty. Qed.

Lemma save_credentials_store_ok provider credentials st :
  store_ok st -> store_ok (save_credentials provider credentials st).2.
Proof.
  intros Hok. unfold save_credentials.
  destruct provider as [| | |p|]; try done.
  destruct credentials as [c|]; [|done].
  destruct (negb (truthy (PStr p)) || bool_decide (c = ∅)); [done|].
  unfold store_ok, alloc in *. simpl.
  apply map_Forall_insert_2.
  - rewrite length_app. simpl. lia.
  - eapply map_Forall_impl; [exact Hok|]. intros k r Hr. simpl in Hr |- *.
    rewrite length_app. lia.
Qed.

(** C10: the handler works on a copy of the saved bundle.  After a run of
    /run, whatever the payload, the store still maps the provider family to
    the same object, the object holds what it held, and resolving the family
    again gives a new object with exactly the saved content, without the
    [backend_name], [shots] and [simulator_choice] the run added to its
    copy. *)
Theorem run_leaves_saved_credentials
    (w : world) (data : option R.payload) (st : state) (p : string) (r : ref) :
  store_ok st ->
  _in_memory_credentials_store st !! p = Some r ->
  let st' := (run_circuit w data st).2 in
  let again := _get_credentials_for_provider w p st' in
  _in_memory_credentials_store st' !! p = Some r /\
  deref st' r = deref st r /\
  store_ok st' /\
  again.1 <> r /\
  deref again.2 again.1 = deref st r.
Proof.
  intros Hok Hp st' again.
  pose proof (run_circuit_grows w data st) as Hg. fold st' in Hg.
  pose proof (Hok _ _ Hp) as Hr. simpl in Hr.
  assert (Hp' : _in_memory_credentials_store st' !! p = Some r).
  { destruct Hg as [-> _]. exact Hp. }
  assert (Hd : deref st' r = deref st r) by (by apply grows_deref).
  split; [done|]. split; [done|]. split; [by eapply grows_store_ok|].
  subst again. unfold _get_credentials_for_provider. rewrite Hp'.
  unfold alloc. simpl. split.
  - destruct Hg as [_ [cells ->]]. rewrite length_app. lia.
  - destruct st' as [h s l]. simpl. rewrite deref_fresh. exact Hd.
Qed.

Lemma run_leaves_saved_credentials_witness :
  deref (run_circuit quiet_world (Some (ionq_request one_h)) after_save).2 0%nat
  = deref after_save 0%nat.
Proof.
  apply (run_leaves_saved_credentials quiet_world (Some (ionq_request one_h))
           after_save "ionq" 0%nat).
  - apply save_credentials_store_ok, store_ok_initial.
  - vm_compute. reflexivity.
Defined.

(** * Further properties of the code *)

(** ** Saving and resolving credentials *)

Lemma resolved_saved w p r st :
  _in_memory_credentials_store st !! p = Some r -> resolved w p st = deref st r.
Proof.
  intros H. unfold resolved, _get_credentials_for_provider. rewrite H.
  unfold alloc. simpl. destruct st as [h s l]. simpl. apply deref_fresh.
Qed.

(** X1: a bundle saved for a provider family is what resolving that family
    returns afterwards, whatever the environment holds and whatever was saved
    for the family before; the save is acknowledged with status 200. *)
Theorem saved_credentials_are_resolved
    (w : world) (p : string) (c : dict) (st : state) :
  p <> "" -> c <> ∅ ->
  let saved := save_credentials (PStr p) (Some c) st in
  status saved.1 = 200 /\
  resolved w p saved.2 = c.
Proof.
  intros Hp Hc saved. subst saved. unfold save_credentials. simpl.
  destruct (String.eqb_spec p ""); [done|]. simpl.
  rewrite bool_decide_eq_false_2 by done.
  unfold alloc. simpl. split; [done|].
  rewrite (resolved_saved w p (length (heap st))).
  - apply deref_fresh.
  - simpl. apply lookup_insert_eq.
Qed.

Lemma saved_credentials_are_resolved_witness :
  resolved broken_world "ionq" (save_credentials (PStr "ionq") (Some aws_bundle) initial_state).2
  = aws_bundle.
Proof.
  apply (saved_credentials_are_resolved broken_world "ionq" aws_bundle initial_state).
  - discriminate.
  - vm_compute. discriminate.
Defined.


(** X3: saving a bundle for one provider family leaves what every other
    family resolves to as it was. *)
Theorem save_credentials_isolation
    (w : world) (p p' : string) (c : dict) (st : state) :
  store_ok st -> p <> p' ->
  resolved w p' (save_credentials (PStr p) (Some c) st).2 = resolved w p' st.
Proof.
  intros Hok Hne. unfold save_credentials. simpl.
  destruct (negb (negb (String.eqb p "")) || bool_decide (c = ∅)); [done|].
  unfold alloc. simpl.
  destruct (_in_memory_credentials_store st !! p') as [r|] eqn:Hr.
  - rewrite (resolved_saved w p' r); [|simpl; by rewrite lookup_insert_ne].
    rewrite (resolved_saved w p' r st Hr).
    unfold deref. simpl. rewrite lookup_app_l; [done|]. exact (Hok _ _ Hr).
  - unfold resolved, _get_credentials_for_provider. simpl.
    rewrite lookup_insert_ne by done. rewrite Hr.
    unfold alloc. simpl. rewrite deref_fresh.
    destruct st as [h s l]. simpl. by rewrite deref_fresh.
Qed.

Lemma save_credentials_isolation_witness :
  resolved quiet_world "ibm" (save_credentials (PStr "rigetti") (Some aws_bundle) after_save).2
  = resolved quiet_world "ibm" after_save.
Proof.
  apply (save_credentials_isolation quiet_world "rigetti" "ibm" aws_bundle after_save).
  - apply save_credentials_store_ok, store_ok_initial.
  - discriminate.
Defined.


(** ** When a runner raises *)

(** X4: of the registered runners, [run_ibm], [run_cirq], [run_pennylane] and
    [run_aer] return a result for every input; [run_ionq] and [run_rigetti]
    raise exactly when the bundle names no backend, and what they raise is a
    [ValueError]. *)
Theorem runners_raise_only_without_backend_name
    (w : world) (r : runner) (circuit_data : circuit_data) (credentials : dict) :
  (exists e, call_runner w r circuit_data credentials = Raise e) <->
  (r = Run_ionq \/ r = Run_rigetti) /\ truthy (dget credentials "backend_name") = false.
Proof.
  split.
  - intros [e He].
    destruct (truthy (dget credentials "backend_name")) eqn:Ht.
    { destruct (call_runner_returns w r circuit_data credentials Ht) as [d Hd]. congruence. }
    split; [|done].
    destruct r; auto; simpl in He; exfalso;
      match type of He with
      | ?run _ _ _ = _ =>
          unfold run in He;
          match type of He with
          | try_except ?b ?h = _ =>
              destruct (try_except_returns b h) as [d Hd];
              [intros e'; try destruct (is_ImportError e'); by eexists | congruence]
          end
      end.
  - intros [[-> | ->] Ht]; simpl; [unfold run_ionq | unfold run_rigetti];
      rewrite Ht; simpl; by eexists.
Qed.

(** ** The answers of /run *)

Lemma fallback_after_error_result_log w pk cd result sim shots st :
  exists extra,
    calls (fallback_after_error_result w pk cd result sim shots st).2
    = (calls st ++ extra)%list.
Proof.
  unfold fallback_after_error_result, mbind, res_bind, bind.
  destruct (backend_map_get sim) as [fb|]; [|exists []; simpl; by rewrite app_nil_r].
  destruct (String.eqb (B.provider_type fb) "qpu");
    [exists []; simpl; by rewrite app_nil_r|].
  destruct (prepare_credentials_spec w fb shots sim st) as [base ->].
  unfold invoke. simpl.
  repeat case_match; simpl; by eexists.
Qed.

Lemma except_ValueError_log w pk cd msg q flag sim shots st :
  exists extra,
    calls (except_ValueError w pk cd msg q flag sim shots st).2 = (calls st ++ extra)%list.
Proof.
  unfold except_ValueError, mbind, res_bind, bind.
  destruct (mentions_credentials msg); [|exists []; simpl; by rewrite app_nil_r].
  destruct (q && truthy flag); [|exists []; simpl; by rewrite app_nil_r].
  destruct (backend_map_get sim) as [fb|]; [|exists []; simpl; by rewrite app_nil_r].
  destruct (String.eqb (B.provider_type fb) "qpu");
    [exists []; simpl; by rewrite app_nil_r|].
  destruct (prepare_credentials_spec w fb shots sim st) as [base ->].
  unfold invoke. simpl.
  repeat case_match; simpl; by eexists.
Qed.

Lemma prepare_credentials_resolved w info shots sim st :
  prepare_credentials w info shots sim st =
  (length (heap st),
   State (heap st ++ [prepared_bundle info shots sim (resolved w (B.provider info) st)])
         (_in_memory_credentials_store st) (calls st)).
Proof.
  unfold prepare_credentials, resolved.
  destruct (_get_credentials_for_provider w (B.provider info) st) as [c st0] eqn:Hget.
  assert (exists base, c = length (heap st) /\
            st0 = State (heap st ++ [base]) (_in_memory_credentials_store st) (calls st))
    as (base & -> & ->).
  { unfold _get_credentials_for_provider, alloc in Hget.
    destruct (_in_memory_credentials_store st !! B.provider info);
      injection Hget as <- <-; by eexists. }
  simpl. rewrite deref_fresh. by rewrite !setitem_fresh.
Qed.

(** X5: the bundle [/run] hands to the primary runner is the resolved bundle
    of the backend's provider family with [backend_name] set to the registry's
    name, [shots] to the payload's (1024 by default) and [simulator_choice] to
    the payload's (["aer_qasm_simulator"] by default); values a saved bundle
    holds under these three keys are overwritten. *)
Theorem primary_runner_bundle
    (w : world) (d : R.payload) (key : string) (info : B.backend_info)
    (cd : circuit_data) (st : state) :
  R.provider d = Some (PStr key) ->
  BACKEND_MAP !! key = Some info ->
  R.circuit d = Some cd ->
  exists rest,
    new_calls st (run_circuit w (Some d) st).2 =
    (B.runner info,
     prepared_bundle info (shots_of d) (simulator_choice_of d)
                     (resolved w (B.provider info) st)) :: rest.
Proof.
  intros Hp Hreg Hcd.
  pose proof (BACKEND_MAP_entry _ _ Hreg) as (_ & _ & Hne).
  unfold run_circuit, get. rewrite Hp, Hcd. simpl.
  destruct (String.eqb_spec key ""); [done|]. simpl. rewrite Hreg.
  fold (shots_of d). fold (simulator_choice_of d).
  rewrite prepare_credentials_resolved.
  unfold try_body, invoke. rewrite deref_fresh. simpl.
  set (k1 := prepared_bundle _ _ _ _).
  destruct (call_runner w (B.runner info) cd k1) as [d1|e].
  - destruct (is_error_result d1); [|exists []; by apply new_calls_app].
    destruct (String.eqb (B.provider_type info) "qpu" && _);
      [|exists []; by apply new_calls_app].
    match goal with
    | |- context [fallback_after_error_result ?a ?b ?c ?dd ?ee ?f ?s] =>
        destruct (fallback_after_error_result_log a b c dd ee f s) as [extra Hlog];
        destruct (fallback_after_error_result a b c dd ee f s) as [[resp|e] st2]
    end.
    + simpl in *. exists extra. apply new_calls_app. rewrite Hlog. by rewrite <- app_assoc.
    + simpl in Hlog.
      destruct (is_ValueError e).
      * match goal with
        | |- context [except_ValueError ?a ?b ?c ?dd ?ee ?f ?g ?h st2] =>
            destruct (except_ValueError_log a b c dd ee f g h st2) as [extra2 Hlog2]
        end.
        exists (extra ++ extra2)%list. apply new_calls_app.
        rewrite Hlog2, Hlog. by rewrite <- !app_assoc.
      * simpl. exists extra. apply new_calls_app. rewrite Hlog. by rewrite <- app_assoc.
  - destruct (is_ValueError e).
    + match goal with
      | |- context [except_ValueError ?a ?b ?c ?dd ?ee ?f ?g ?h ?s] =>
          destruct (except_ValueError_log a b c dd ee f g h s) as [extra2 Hlog2]
      end.
      exists extra2. apply new_calls_app. rewrite Hlog2. simpl. by rewrite <- app_assoc.
    + exists []. by apply new_calls_app.
Qed.

Lemma primary_runner_bundle_witness :
  exists rest,
    new_calls after_save (run_circuit quiet_world (Some (ionq_request one_h)) after_save).2 =
    (B.runner (B.BackendInfo "ionq" Run_ionq "ionq/qpu" "qpu"),
     prepared_bundle (B.BackendInfo "ionq" Run_ionq "ionq/qpu" "qpu")
                     (shots_of (ionq_request one_h)) (simulator_choice_of (ionq_request one_h))
                     (resolved quiet_world
                        (B.provider (B.BackendInfo "ionq" Run_ionq "ionq/qpu" "qpu"))
                        after_save)) :: rest.
Proof.
  apply (primary_runner_bundle quiet_world (ionq_request one_h) "aws_ionq"
           (B.BackendInfo "ionq" Run_ionq "ionq/qpu" "qpu") one_h after_save).
  - reflexivity.
  - vm_compute. reflexivity.
  - reflexivity.
Defined.

Lemma not_error_result_no_error d :
  result_shape d -> is_error_result d = false -> d !! "error" = None.
Proof.
  intros Hs He. pose proof (shape_facts _ Hs) as (_ & Hne & _).
  unfold is_error_result, has_key in He.
  rewrite bool_decide_eq_false_2 in He by done. simpl in He.
  apply bool_decide_eq_false in He.
  destruct (d !! "error") eqn:H; [|done]. exfalso. apply He. by eexists.
Qed.

(** With a circuit in the payload the handler answers, with status 200, 400 or
    500, and the answer has an [error] field unless the status is 200. *)
Lemma run_circuit_answers w d cd st :
  R.circuit d = Some cd ->
  exists resp,
    (run_circuit w (Some d) st).1 = Ret resp /\
    (status resp = 200 \/ status resp = 400 \/ status resp = 500) /\
    (status resp = 200 <-> body resp !! "error" = None).
Proof.
  intros Hcd.
  destruct (run_circuit_paths w (Some d) st)
    as [[_ Hno]|(d' & key & info & cd' & k1 & d1 & [= <-] & Hp & Hreg & _ & Hr1 & Hs1
                 & Hpath)].
  - unfold run_circuit. rewrite Hcd.
    destruct (truthy (get (R.provider d))) eqn:Ht; simpl.
    2: { eexists. split; [done|]. simpl. split; [auto|]. split; [done|].
         intros H. discriminate H. }
    destruct (backend_map_get (get (R.provider d))) as [info|] eqn:Hinfo.
    + exfalso. pose proof Hinfo as Hi. apply backend_map_get_Some in Hi as (key & Hk & Hreg).
      apply (Hno d key info cd); try done.
      unfold get in Hk. destruct (R.provider d); simpl in Hk; [by subst | done].
    + eexists. split; [done|]. simpl. split; [auto|]. split; [done|].
      intros H. discriminate H.
  - destruct Hpath as [(He & Hout & _)|[(_ & _ & Hout & _)|[(_ & _ & _ & Hout & _)|
      (fb & k2 & d2 & _ & _ & _ & _ & _ & Hs2 & _ & [[_ Hout]|[He2 Hout]])]]];
      rewrite Hout; eexists; (split; [done|]); simpl.
    + split; [auto|]. split; [intros _; by apply not_error_result_no_error | done].
    + split; [auto|]. split; [done | intros H; discriminate H].
    + split; [auto|]. split; [done | intros H; discriminate H].
    + split; [auto|]. split; [done | intros H; discriminate H].
    + split; [auto|]. split; [|done]. intros _.
      rewrite !lookup_insert_ne by done. by apply not_error_result_no_error.
Qed.


(** X7: every answer of [/run] has status 200, 400 or 500, and it has an
    [error] field exactly when the status is not 200.  The handler's 401
    branch is never taken: the registered runners report a missing credential
    as an error result, not as an exception. *)
Theorem run_circuit_status
    (w : world) (data : option R.payload) (st : state) (resp : response) :
  (run_circuit w data st).1 = Ret resp ->
  (status resp = 200 \/ status resp = 400 \/ status resp = 500) /\
  (status resp = 200 <-> body resp !! "error" = None).
Proof.
  destruct data as [d|].
  2: { simpl. intros [= <-]. simpl. split; [auto|]. split; [done | intros H; discriminate H]. }
  destruct (R.circuit d) as [cd|] eqn:Hcd.
  - destruct (run_circuit_answers w d cd st Hcd) as (resp' & Hout & H).
    rewrite Hout. by intros [= <-].
  - unfold run_circuit. rewrite Hcd. discriminate.
Qed.

Lemma run_circuit_status_witness :
  (status (Response cirq_state 200) = 200 \/ status (Response cirq_state 200) = 400
   \/ status (Response cirq_state 200) = 500) /\
  (status (Response cirq_state 200) = 200 <-> body (Response cirq_state 200) !! "error" = None).
Proof.
  apply (run_circuit_status quiet_world (Some (cirq_request one_h)) initial_state).
  vm_compute. reflexivity.
Defined.

(** ** Output modes *)

Ltac unpack_results :=
  repeat match goal with
  | H : Raise _ = Ret _ |- _ => discriminate H
  | H : false = true |- _ => discriminate H
  | H : Ret ?a = Ret ?b |- _ => injection H as H; first [subst b | subst a]
  end.

Lemma run_aer_mode w cd c d :
  run_aer w cd c = Ret d -> d !! "error" = None ->
  let s := dget_or c "simulator_choice" (PStr "qasm_simulator") in
  (s = PStr "aer_qasm_simulator" /\ present d "counts" = true /\
   present d "statevector" = false)
  \/
  (s = PStr "aer_statevector_simulator" /\ present d "counts" = false /\
   present d "statevector" = true).
Proof.
  unfold run_aer. intros H Hne. cbv zeta.
  unfold try_except, mbind, res_bind, bind in H.
  repeat case_match; unpack_results; try discriminate Hne.
  all: match goal with
       | Hb : bool_decide (_ = PStr "aer_qasm_simulator") = true |- _ =>
           apply bool_decide_eq_true in Hb; left; split; [exact Hb | split; reflexivity]
       | Hb : bool_decide (_ = PStr "aer_statevector_simulator") = true |- _ =>
           apply bool_decide_eq_true in Hb; right; split; [exact Hb | split; reflexivity]
       end.
Qed.

(** X8: the Aer runner picks its mode from [simulator_choice], not from the
    backend that was asked for: a successful [/run] on either Aer backend
    returns counts when the simulator choice is ["aer_qasm_simulator"] (the
    default, so also on ["aer_statevector_simulator"] when the payload names no
    choice), a statevector when it is ["aer_statevector_simulator"], and does
    not succeed for any other choice. *)
Theorem aer_mode_follows_simulator_choice
    (w : world) (d : R.payload) (key : string) (cd : circuit_data) (st : state)
    (resp : response) :
  R.provider d = Some (PStr key) ->
  key = "aer_qasm_simulator" \/ key = "aer_statevector_simulator" ->
  R.circuit d = Some cd ->
  (run_circuit w (Some d) st).1 = Ret resp ->
  status resp = 200 ->
  (simulator_choice_of d = PStr "aer_qasm_simulator" /\
   present (body resp) "counts" = true /\ present (body resp) "statevector" = false)
  \/
  (simulator_choice_of d = PStr "aer_statevector_simulator" /\
   present (body resp) "counts" = false /\ present (body resp) "statevector" = true).
Proof.
  intros Hp Hkey Hcd Hout Hst.
  assert (exists info, BACKEND_MAP !! key = Some info /\ B.runner info = Run_aer /\
                       is_qpu_entry info = false) as (info & Hreg & Hrun & Hq).
  { destruct Hkey as [-> | ->]; eexists; (split; [reflexivity|]); split; reflexivity. }
  destruct (primary_runner_bundle w d key info cd st Hp Hreg Hcd) as [rest Hb].
  destruct (run_circuit_paths w (Some d) st)
    as [[Hc _]|(d' & key' & info' & cd' & k1 & d1 & [= <-] & Hp' & Hreg' & Hcd' & Hr1 & Hs1
                & Hpath)].
  { by rewrite (new_calls_none _ _ Hc) in Hb. }
  rewrite Hp in Hp'. injection Hp' as <-.
  rewrite Hreg in Hreg'. injection Hreg' as <-.
  rewrite Hcd in Hcd'. injection Hcd' as <-.
  rewrite Hq in Hpath.
  destruct Hpath as [(He & Hout' & Hc)|[(_ & _ & Hout' & _)|[(_ & ? & _)|
    (fb & k2 & d2 & _ & ? & _)]]]; try discriminate.
  2: { rewrite Hout in Hout'. injection Hout' as ->. discriminate Hst. }
  rewrite Hout in Hout'. injection Hout' as ->. simpl.
  rewrite (new_calls_app _ _ _ Hc) in Hb. injection Hb as -> _.
  rewrite Hrun in Hr1. simpl in Hr1.
  pose proof (run_aer_mode w cd _ d1 Hr1 (not_error_result_no_error _ Hs1 He)) as Hm.
  simpl in Hm. unfold prepared_bundle, dget_or in Hm.
  rewrite lookup_insert_eq in Hm. exact Hm.
Qed.

Lemma aer_mode_follows_simulator_choice_witness :
  (simulator_choice_of
     (R.Payload (Some (PStr "aer_statevector_simulator")) (Some one_h) None None None)
   = PStr "aer_qasm_simulator" /\
   present (body (Response aer_counts 200)) "counts" = true /\
   present (body (Response aer_counts 200)) "statevector" = false)
  \/
  (simulator_choice_of
     (R.Payload (Some (PStr "aer_statevector_simulator")) (Some one_h) None None None)
   = PStr "aer_statevector_simulator" /\
   present (body (Response aer_counts 200)) "counts" = false /\
   present (body (Response aer_counts 200)) "statevector" = true).
Proof.
  apply (aer_mode_follows_simulator_choice quiet_world
           (R.Payload (Some (PStr "aer_statevector_simulator")) (Some one_h) None None None)
           "aer_statevector_simulator" one_h initial_state).
  - reflexivity.
  - right. reflexivity.
  - reflexivity.
  - vm_compute. reflexivity.
  - reflexivity.
Defined.

(** X9: the Cirq and PennyLane runners pick their mode from the gate list: a
    run that succeeds returns counts when some gate is a measurement and a
    statevector when none is. *)
Theorem mode_follows_measure_gates
    (w : world) (circuit_data : circuit_data) (credentials d : dict) :
  run_cirq w circuit_data credentials = Ret d \/
  run_pennylane w circuit_data credentials = Ret d ->
  d !! "error" = None ->
  present d "counts" = any_measure circuit_data /\
  present d "statevector" = negb (any_measure circuit_data).
Proof.
  intros [H|H] Hne.
  - unfold run_cirq, try_except, mbind, res_bind, bind in H.
    repeat case_match; unpack_results; try discriminate Hne; split; reflexivity.
  - unfold run_pennylane, try_except, mbind, res_bind, bind in H.
    repeat case_match; unpack_results; try discriminate Hne; split; reflexivity.
Qed.

Lemma mode_follows_measure_gates_witness :
  present cirq_state "counts" = any_measure one_h /\
  present cirq_state "statevector" = negb (any_measure one_h).
Proof.
  apply (mode_follows_measure_gates quiet_world one_h ∅ cirq_state).
  - left. vm_compute. reflexivity.
  - vm_compute. reflexivity.
Defined.

(** ** Measurement gates *)

Lemma has_measure_call_snoc circuit m args :
  has_measure_call (circuit ++ [Call m args]) = has_measure_call circuit || String.eqb m "measure".
Proof. unfold has_measure_call. rewrite existsb_app. simpl. by rewrite orb_false_r. Qed.

Lemma aer_step_measure st g st' :
  Aer.build_step st g = Ret st' ->
  st'.2 = st.2 || String.eqb (lower (G.gate g)) "measure" /\
  has_measure_call st'.1 = has_measure_call st.1 || String.eqb (lower (G.gate g)) "measure".
Proof.
  unfold Aer.build_step. destruct st as [circuit m]. intros H.
  repeat case_match; try discriminate H; injection H as <-; simpl;
    rewrite ?has_measure_call_snoc;
    repeat match goal with
           | Hk : String.eqb (lower (G.gate g)) _ = true |- _ =>
               apply String.eqb_eq in Hk; rewrite Hk
           | Hk : String.eqb (lower (G.gate g)) "measure" = false |- _ => rewrite Hk
           end;
    simpl; rewrite ?orb_false_r, ?orb_true_r; done.
Qed.

Lemma aer_loop_measure gs : forall st st',
  for_each Aer.build_step st gs = Ret st' ->
  st'.2 = st.2 || existsb (fun g => String.eqb (lower (G.gate g)) "measure") gs /\
  has_measure_call st'.1
  = has_measure_call st.1 || existsb (fun g => String.eqb (lower (G.gate g)) "measure") gs.
Proof.
  induction gs as [|g gs IH]; intros st st'; simpl.
  - intros [= <-]. by rewrite !orb_false_r.
  - destruct (Aer.build_step st g) as [st1|e] eqn:Hstep; [|discriminate].
    intros H. apply IH in H as [H1 H2].
    apply aer_step_measure in Hstep as [H3 H4].
    rewrite H1, H2, H3, H4. by rewrite !orb_assoc.
Qed.

(** X10: the flag [_build_qiskit_circuit_aer] returns beside the circuit is
    true exactly when the gate list holds a measure gate (in any letter case),
    and exactly then does the translated circuit hold a measurement call; no
    other gate kind produces one. *)
Theorem aer_measurement_flag
    (circuit_data : circuit_data) (circuit : list sdk_call) (has_explicit_measurements : bool) :
  Aer._build_qiskit_circuit_aer circuit_data = Ret (circuit, has_explicit_measurements) ->
  has_explicit_measurements = any_measure circuit_data /\
  has_measure_call circuit = any_measure circuit_data.
Proof.
  unfold Aer._build_qiskit_circuit_aer. intros H.
  apply aer_loop_measure in H as [H1 H2]. done.
Qed.

Lemma aer_measurement_flag_witness :
  true = any_measure bell_upper /\
  has_measure_call [Call "h" [PInt 0]; Call "cx" [PInt 0; PInt 1];
                    Call "measure" [PInt 0; PInt 0]; Call "measure" [PInt 1; PInt 1]]
  = any_measure bell_upper.
Proof.
  apply (aer_measurement_flag bell_upper). vm_compute. reflexivity.
Defined.

Lemma braket_measure_step who circuit g t :
  lower (G.gate g) = "measure" -> G.target g = Some t ->
  Braket.build_step who circuit g = Ret circuit.
Proof. intros Hk Ht. unfold Braket.build_step. rewrite Hk, Ht. reflexivity. Qed.

Lemma pennylane_measure_step circuit g t :
  lower (G.gate g) = "measure" -> G.target g = Some t ->
  Pennylane.build_step circuit g = Ret circuit.
Proof. intros Hk Ht. unfold Pennylane.build_step. rewrite Hk, Ht. reflexivity. Qed.

(** X11: a measure gate that names a target adds nothing to a Braket or
    PennyLane translation, and an IonQ or Rigetti run gives the same result
    with the gate as without it. *)
Theorem measure_gate_is_ignored_by_braket
    (w : world) (q : Z) (pre post : list gate_info) (g : gate_info) (t : pyval)
    (credentials : dict) :
  lower (G.gate g) = "measure" -> G.target g = Some t ->
  let with_gate := G.CircuitData q (pre ++ g :: post) in
  let without := G.CircuitData q (pre ++ post) in
  run_ionq w with_gate credentials = run_ionq w without credentials /\
  run_rigetti w with_gate credentials = run_rigetti w without credentials /\
  Pennylane.quantum_program_gates with_gate = Pennylane.quantum_program_gates without.
Proof.
  intros Hk Ht with_gate without.
  assert (Hi : Braket._build_braket_circuit with_gate = Braket._build_braket_circuit without).
  { apply for_each_skip. intros st. by eapply braket_measure_step. }
  assert (Hr : Braket._build_braket_circuit_rigetti with_gate
               = Braket._build_braket_circuit_rigetti without).
  { apply for_each_skip. intros st. by eapply braket_measure_step. }
  split; [|split].
  - unfold run_ionq. by rewrite Hi.
  - unfold run_rigetti. by rewrite Hr.
  - apply for_each_skip. intros st. by eapply pennylane_measure_step.
Qed.

Lemma measure_gate_is_ignored_by_braket_witness :
  run_ionq quiet_world (G.CircuitData 1 ([gate_on "h" 0] ++ gate_on "Measure" 0 :: [])) aws_bundle
  = run_ionq quiet_world (G.CircuitData 1 ([gate_on "h" 0] ++ [])) aws_bundle.
Proof.
  apply (measure_gate_is_ignored_by_braket quiet_world 1 [gate_on "h" 0] []
           (gate_on "Measure" 0) (PInt 0) aws_bundle).
  - reflexivity.
  - reflexivity.
Defined.

(** ** Letter case of gate kinds *)

Lemma lower_ascii_idem c : lower_ascii (lower_ascii c) = lower_ascii c.
Proof. destruct c as [[] [] [] [] [] [] [] []]; reflexivity. Qed.

Lemma lower_idem s : lower (lower s) = lower s.
Proof. induction s as [|c s IH]; simpl; [done|]. by rewrite lower_ascii_idem, IH. Qed.

Lemma for_each_map {A S : Type} (body : S -> A -> res S) (f : A -> A) (xs : list A) :
  (forall st x, body st (f x) = body st x) ->
  forall st, for_each body st (map f xs) = for_each body st xs.
Proof.
  intros Hf. induction xs as [|x xs IH]; intros st; simpl; [done|].
  rewrite Hf. destruct (body st x); [apply IH | done].
Qed.

Lemma any_measure_lower_kinds cd : any_measure (lower_kinds cd) = any_measure cd.
Proof.
  unfold any_measure, lower_kinds. simpl.
  induction (G.gates cd) as [|g gs IH]; simpl; [done|].
  by rewrite lower_idem, IH.
Qed.

Ltac lowered_step := intros; cbv beta delta [Aer.build_step Cirq.build_step Braket.build_step
  Ibm.build_step Pennylane.build_step Quantinuum.build_step params_or_empty params_item];
  cbn [G.gate G.target G.control G.controls G.control1 G.control2 G.classical_bit G.params];
  rewrite lower_idem; reflexivity.

(** X12: gate kinds are read without regard to letter case by every adapter
    of the dispatcher: each registered runner, and the Quantinuum translation,
    gives for a circuit exactly what it gives for the same circuit with all
    kinds in lower case. *)
Theorem gate_kinds_ignore_case
    (w : world) (r : runner) (circuit_data : circuit_data) (credentials : dict) :
  call_runner w r (lower_kinds circuit_data) credentials
  = call_runner w r circuit_data credentials
  /\
  Quantinuum._build_qiskit_circuit_quantinuum (lower_kinds circuit_data)
  = Quantinuum._build_qiskit_circuit_quantinuum circuit_data.
Proof.
  split.
  - destruct r; simpl.
    + unfold run_ibm, Ibm.build_circuit.
      replace (for_each _ _ (G.gates (lower_kinds circuit_data)))
        with (for_each (Ibm.build_step (G.qubits circuit_data)) ([], 0)
                       (G.gates circuit_data)); [done|].
      symmetry. apply for_each_map. lowered_step.
    + unfold run_ionq, Braket._build_braket_circuit.
      replace (for_each _ _ (G.gates (lower_kinds circuit_data)))
        with (for_each (Braket.build_step "IonQ") [] (G.gates circuit_data)); [done|].
      symmetry. apply for_each_map. lowered_step.
    + unfold run_rigetti, Braket._build_braket_circuit_rigetti.
      replace (for_each _ _ (G.gates (lower_kinds circuit_data)))
        with (for_each (Braket.build_step "Rigetti") [] (G.gates circuit_data)); [done|].
      symmetry. apply for_each_map. lowered_step.
    + unfold run_cirq, Cirq._build_cirq_circuit. rewrite any_measure_lower_kinds.
      replace (for_each _ _ (G.gates (lower_kinds circuit_data)))
        with (for_each (Cirq.build_step (G.qubits circuit_data)) []
                       (G.gates circuit_data)); [done|].
      symmetry. apply for_each_map. lowered_step.
    + unfold run_pennylane, Pennylane.quantum_program_gates.
      rewrite any_measure_lower_kinds.
      replace (for_each _ _ (G.gates (lower_kinds circuit_data)))
        with (for_each Pennylane.build_step [] (G.gates circuit_data)); [done|].
      symmetry. apply for_each_map. lowered_step.
    + unfold run_aer, Aer._build_qiskit_circuit_aer.
      replace (for_each _ _ (G.gates (lower_kinds circuit_data)))
        with (for_each Aer.build_step ([], false) (G.gates circuit_data)); [done|].
      symmetry. apply for_each_map. lowered_step.
  - unfold Quantinuum._build_qiskit_circuit_quantinuum.
    apply (for_each_map Quantinuum.build_step). lowered_step.
Qed.

(** ** Toffoli gates *)

(** X13: the adapters disagree on how a Toffoli gate names its controls.  The
    Aer translation reads the keys [control1] and [control2] and rejects a gate
    that lacks either; the IonQ, Rigetti, IBM, PennyLane, Cirq and Quantinuum
    translations read the list [controls] and reject a gate without it.  A
    [ccx] gate written for one side fails on the other. *)
Theorem toffoli_controls_differ_by_adapter (g : gate_info) :
  lower (G.gate g) = "ccx" ->
  (G.control1 g = None \/ G.control2 g = None ->
   forall st, exists m, Aer.build_step st g = Raise (ValueError m))
  /\
  (G.controls g = None ->
   (forall who circuit, exists e, Braket.build_step who circuit g = Raise e) /\
   (forall n st, Ibm.build_step n st g
                 = Raise (ValueError "CCX gate requires exactly 2 control qubits.")) /\
   (forall circuit, exists e, Pennylane.build_step circuit g = Raise e) /\
   (forall n circuit, exists e, Cirq.build_step n circuit g = Raise e) /\
   (forall circuit, Quantinuum.build_step circuit g = Raise (KeyError "controls"))).
Proof.
  intros Hk. split.
  - intros Hc [circuit m]. unfold Aer.build_step. rewrite Hk.
    destruct (negb (bool_decide (get (G.target g) = PNone)) && negb (is_int (get (G.target g))));
      [by eexists|].
    destruct (negb (bool_decide (get (G.control g) = PNone))
              && negb (is_int (get (G.control g)))); [by eexists|].
    simpl. destruct Hc as [-> | ->]; simpl.
    + by eexists.
    + rewrite orb_true_r. by eexists.
  - intros Hc. repeat split.
    + intros who circuit. unfold Braket.build_step. rewrite Hk, Hc.
      destruct (G.target g); simpl; by eexists.
    + intros n [circuit ncl]. unfold Ibm.build_step. rewrite Hk, Hc. reflexivity.
    + intros circuit. unfold Pennylane.build_step. rewrite Hk, Hc.
      destruct (G.target g); simpl; by eexists.
    + intros n circuit. unfold Cirq.build_step. rewrite Hk, Hc.
      destruct (G.target g) as [t|]; simpl; [|by eexists].
      destruct (Cirq.qubit_at n t); simpl; by eexists.
    + intros circuit. unfold Quantinuum.build_step. rewrite Hk, Hc. reflexivity.
Qed.

Lemma toffoli_controls_differ_by_adapter_witness :
  (forall st, exists m,
     Aer.build_step st (G.GateInfo "CCX" (Some (PInt 2)) None (Some [PInt 0; PInt 1])
                                   None None None None) = Raise (ValueError m))
  /\
  (forall n st,
     Ibm.build_step n st (G.GateInfo "ccx" (Some (PInt 2)) None None
                                     (Some (PInt 0)) (Some (PInt 1)) None None)
     = Raise (ValueError "CCX gate requires exactly 2 control qubits.")).
Proof.
  split.
  - apply (proj1 (toffoli_controls_differ_by_adapter
                    (G.GateInfo "CCX" (Some (PInt 2)) None (Some [PInt 0; PInt 1])
                                None None None None) eq_refl)).
    left. reflexivity.
  - apply (proj2 (toffoli_controls_differ_by_adapter
                    (G.GateInfo "ccx" (Some (PInt 2)) None None
                                (Some (PInt 0)) (Some (PInt 1)) None None) eq_refl)).
    reflexivity.
Defined.

(** ** Credentials of the QPU runners *)

(** X14: without a complete set of AWS credentials a run on the IonQ or the
    Rigetti QPU ends in an error result before AWS is contacted, so the result
    does not depend on the outside world: it carries the translation's failure
    when the circuit does not translate, and the credentials message
    otherwise. *)
Theorem aws_qpu_needs_credentials
    (w : world) (circuit_data : circuit_data) (credentials : dict) :
  aws_credentials_given credentials = false ->
  (dget credentials "backend_name" = PStr "ionq/qpu" ->
   run_ionq w circuit_data credentials =
   Ret (mk [("error",
             PStr (match Braket._build_braket_circuit circuit_data with
                   | Raise e => exn_str e
                   | Ret _ => "AWS credentials (AWS_ACCESS_KEY_ID, AWS_SECRET_ACCESS_KEY, AWS_REGION) are required for IonQ QPU."
                   end));
            ("backend_used", PStr "ionq/qpu")]))
  /\
  (dget credentials "backend_name" = PStr "rigetti/qpu" ->
   run_rigetti w circuit_data credentials =
   Ret (mk [("error",
             PStr (match Braket._build_braket_circuit_rigetti circuit_data with
                   | Raise e => exn_str e
                   | Ret _ => "AWS credentials (AWS_ACCESS_KEY_ID, AWS_SECRET_ACCESS_KEY, AWS_REGION) are required for Rigetti QPU."
                   end));
            ("backend_used", PStr "rigetti/qpu")])).
Proof.
  intros Hc. split; intros Hb.
  - unfold run_ionq. rewrite Hb, Hc. simpl.
    destruct (Braket._build_braket_circuit circuit_data); reflexivity.
  - unfold run_rigetti. rewrite Hb, Hc. simpl.
    destruct (Braket._build_braket_circuit_rigetti circuit_data); reflexivity.
Qed.

Lemma aws_qpu_needs_credentials_witness :
  run_ionq broken_world one_unknown_gate ionq_env_bundle =
  Ret (mk [("error",
            PStr (match Braket._build_braket_circuit one_unknown_gate with
                  | Raise e => exn_str e
                  | Ret _ => "AWS credentials (AWS_ACCESS_KEY_ID, AWS_SECRET_ACCESS_KEY, AWS_REGION) are required for IonQ QPU."
                  end));
           ("backend_used", PStr "ionq/qpu")]).
Proof.
  apply (aws_qpu_needs_credentials broken_world one_unknown_gate ionq_env_bundle).
  - vm_compute. reflexivity.
  - vm_compute. reflexivity.
Defined.

(** ** /transpile_circuit *)

Lemma any_ge_false nq n qs :
  as_number nq = Some n ->
  any_ge nq qs = Ret false ->
  Forall (fun q => exists z, as_number q = Some z /\ z < n) qs.
Proof.
  intros Hn. induction qs as [|q qs IH]; simpl; [constructor|].
  destruct (py_ge q nq) as [[]|e] eqn:Hge; try discriminate.
  intros H. constructor; [|by apply IH].
  unfold py_ge in Hge.
  destruct q, nq; simpl in *; try discriminate; injection Hn as <-;
    injection Hge as Hge; apply Z.leb_gt in Hge; by eexists.
Qed.

Lemma at_Forall (P : pyval -> Prop) xs i :
  Forall P xs -> (i < length xs)%nat -> P (at_ xs i).
Proof. intros H Hi. unfold at_. by apply Forall_nth. Qed.

Lemma convert_step_below nq n circuit g circuit' :
  as_number nq = Some n ->
  convert_step nq circuit g = Ret circuit' ->
  Forall (below n) circuit -> Forall (below n) circuit'.
Proof.
  intros Hn Hstep Hc. unfold convert_step in Hstep.
  destruct (Transpile.name g) as [name|]; [|discriminate].
  destruct (default [] (Transpile.qubits g)) as [|q0 qs] eqn:Hq; simpl in Hstep.
  { by injection Hstep as <-. }
  destruct (py_ge q0 nq) as [[]|e] eqn:Hge; simpl in Hstep; try discriminate.
  { by injection Hstep as <-. }
  destruct (any_ge nq qs) as [[]|e] eqn:Hany; simpl in Hstep; try discriminate.
  { by injection Hstep as <-. }
  assert (Hall : Forall (fun q => exists z, as_number q = Some z /\ z < n) (q0 :: qs)).
  { apply (any_ge_false nq); [done|]. simpl. by rewrite Hge, Hany. }
  assert (H0 : exists z, as_number (at_ (q0 :: qs) 0) = Some z /\ z < n).
  { apply (at_Forall _ _ _ Hall). simpl. lia. }
  repeat case_match; try discriminate Hstep; injection Hstep as <-; try done;
    apply Forall_app; (split; [done|]); constructor; try constructor;
    unfold below; simpl;
    repeat match goal with
           | Hl : Nat.eqb (length _) _ = true |- _ => apply Nat.eqb_eq in Hl
           end;
    repeat first
      [ exact H0
      | apply (at_Forall (fun q => exists z, as_number q = Some z /\ z < n) _ _ Hall);
        simpl in *; lia
      | constructor ].
Qed.

(** X15: whatever [/transpile_circuit] hands to Qiskit names only qubits below
    the qubit count of the payload: in the converted circuit every qubit
    argument of every call is an integer smaller than [num_qubits].  (The
    guard bounds indices from above only.) *)
Theorem converted_gates_are_below_num_qubits
    (num_qubits : pyval) (n : Z) (gates : list Transpile.gate) (circuit : list sdk_call) :
  as_number num_qubits = Some n ->
  convert_gates num_qubits gates = Ret circuit ->
  Forall (below n) circuit.
Proof.
  intros Hn. unfold convert_gates.
  assert (forall gs c c', Forall (below n) c ->
            for_each (convert_step num_qubits) c gs = Ret c' -> Forall (below n) c') as H.
  { induction gs as [|g gs IH]; intros c c' Hc; simpl.
    - by intros [= <-].
    - destruct (convert_step num_qubits c g) as [c1|e] eqn:Hs; [|discriminate].
      apply IH. by eapply convert_step_below. }
  apply H. constructor.
Qed.

Lemma converted_gates_are_below_num_qubits_witness :
  Forall (below 2) [Call "h" [PInt 0]; Call "cx" [PInt 0; PInt 1]; Call "x" [PInt (-1)]].
Proof.
  apply (converted_gates_are_below_num_qubits (PInt 2) 2
           [editor_gate "H" [0]; editor_gate "cx" [0; 1]; editor_gate "x" [5];
            editor_gate "x" [-1]; editor_gate "rx" [1]]).
  - reflexivity.
  - vm_compute. reflexivity.
Defined.

Lemma any_ge_true nq n qs :
  as_number nq = Some n ->
  Forall (fun q => is_Some (as_number q)) qs ->
  Exists (fun q => exists z, as_number q = Some z /\ n <= z) qs ->
  any_ge nq qs = Ret true.
Proof.
  intros Hn Hall Hex. induction qs as [|q qs IH]; [by apply Exists_nil in Hex|].
  apply Forall_cons in Hall as [[z Hz] Hall]. simpl.
  assert (Hge : py_ge q nq = Ret (n <=? z)).
  { unfold py_ge. destruct q, nq; simpl in *; try discriminate;
      injection Hn as <-; injection Hz as <-; reflexivity. }
  rewrite Hge. destruct (Z.leb_spec n z); [done|].
  apply IH; [done|]. apply Exists_cons in Hex as [(z' & Hz' & Hle)|Hex]; [|done].
  rewrite Hz in Hz'. injection Hz' as <-. lia.
Qed.

(** X16: a gate that names no qubit, or whose qubit list (of integers) holds
    an index that is not below [num_qubits], is skipped: the endpoint answers
    as it does for the circuit without that gate. *)
Theorem out_of_range_gate_is_skipped
    (w : world) (pre post : list Transpile.gate) (g : Transpile.gate) (name : string)
    (target num_qubits : pyval) (n : Z) :
  as_number num_qubits = Some n ->
  Transpile.name g = Some name ->
  default [] (Transpile.qubits g) = [] \/
  (Forall (fun q => is_Some (as_number q)) (default [] (Transpile.qubits g)) /\
   Exists (fun q => exists z, as_number q = Some z /\ n <= z)
          (default [] (Transpile.qubits g))) ->
  transpile_circuit w (Transpile.Payload (Some (pre ++ g :: post)%list) target num_qubits)
  = transpile_circuit w (Transpile.Payload (Some (pre ++ post)%list) target num_qubits).
Proof.
  intros Hn Hname Hbad.
  assert (Hstep : forall c, convert_step num_qubits c g = Ret c).
  { intros c. unfold convert_step. rewrite Hname.
    destruct (default [] (Transpile.qubits g)) as [|q0 qs] eqn:Hq; [done|].
    destruct Hbad as [?|[Hall Hex]]; [done|].
    by rewrite (any_ge_true num_qubits n (q0 :: qs)). }
  unfold transpile_circuit, convert_gates. simpl.
  by rewrite (for_each_skip _ g pre post Hstep).
Qed.

Lemma out_of_range_gate_is_skipped_witness :
  transpile_circuit quiet_world
    (Transpile.Payload (Some ([editor_gate "h" [0]] ++ editor_gate "cx" [0; 2] :: [])%list)
                       (PStr "aer_qasm_simulator") (PInt 2))
  = transpile_circuit quiet_world
      (Transpile.Payload (Some ([editor_gate "h" [0]] ++ [])%list)
                         (PStr "aer_qasm_simulator") (PInt 2)).
Proof.
  apply (out_of_range_gate_is_skipped quiet_world [editor_gate "h" [0]] []
           (editor_gate "cx" [0; 2]) "cx" (PStr "aer_qasm_simulator") (PInt 2) 2).
  - reflexivity.
  - reflexivity.
  - right. split.
    + repeat constructor; by eexists.
    + right. left. exists 2. split; [reflexivity | lia].
Defined.



(** ** google_backend.py *)

Lemma google_step_keys n st g st' :
  Google.build_step n st g = Ret st' ->
  bool_decide (st'.2 = []) = bool_decide (st.2 = []) && negb (String.eqb (G.gate g) "MEASURE").
Proof.
  unfold Google.build_step, mbind, res_bind, bind. destruct st as [circuit keys]. intros H.
  repeat case_match; try discriminate H;
    repeat match goal with
           | Hr : Ret _ = Ret _ |- _ => injection Hr as <-
           | Hr : Raise _ = Ret _ |- _ => discriminate Hr
           end; simpl;
    repeat match goal with
           | Hk : String.eqb (G.gate g) _ = true |- _ =>
               apply String.eqb_eq in Hk; rewrite Hk
           | Hk : String.eqb (G.gate g) "MEASURE" = false |- _ => rewrite Hk
           end;
    simpl; rewrite ?andb_true_r, ?andb_false_r; try done.
  all: apply bool_decide_eq_false; by destruct keys.
Qed.

Lemma google_loop_keys n gs : forall st st',
  for_each (Google.build_step n) st gs = Ret st' ->
  bool_decide (st'.2 = []) = bool_decide (st.2 = []) && negb (any_MEASURE gs).
Proof.
  induction gs as [|g gs IH]; intros st st'; simpl.
  - intros [= <-]. by rewrite andb_true_r.
  - destruct (Google.build_step n st g) as [st1|e] eqn:Hstep; [|discriminate].
    intros H. apply IH in H. apply google_step_keys in Hstep.
    rewrite H, Hstep. unfold any_MEASURE. by rewrite negb_orb, andb_assoc.
Qed.

(** X18: what [run_google] returns has counts alone when some gate is written
    ["MEASURE"] and a statevector with its probabilities when none is; it
    never has an [error] field (failures are raised) and never a
    [backend_used] field, which the [/run] handler reads from every
    result. *)
Theorem run_google_result
    (w : world) (num_qubits : option Z) (gates : list gate_info) (d : dict) :
  Google.run_google w num_qubits gates = Ret d ->
  present d "counts" = any_MEASURE gates /\
  present d "statevector" = negb (any_MEASURE gates) /\
  d !! "error" = None /\
  d !! "backend_used" = None.
Proof.
  unfold Google.run_google, mbind, res_bind, bind.
  destruct num_qubits as [n|]; [|discriminate].
  destruct (for_each (Google.build_step n) ([], []) gates) as [[circuit keys]|e] eqn:Hb;
    [|discriminate].
  apply google_loop_keys in Hb. simpl in Hb.
  destruct keys as [|k keys]; simpl in Hb.
  - symmetry in Hb. apply negb_true_iff in Hb. rewrite Hb.
    repeat case_match; try discriminate. intros [= <-]. repeat split; reflexivity.
  - symmetry in Hb. apply negb_false_iff in Hb. rewrite Hb.
    repeat case_match; try discriminate. intros [= <-]. repeat split; reflexivity.
Qed.

Lemma run_google_result_witness :
  present (mk [("counts", PData "<cirq.run.Counter>")]) "counts"
  = any_MEASURE (G.gates bell_upper) /\
  present (mk [("counts", PData "<cirq.run.Counter>")]) "statevector"
  = negb (any_MEASURE (G.gates bell_upper)) /\
  mk [("counts", PData "<cirq.run.Counter>")] !! "error" = None /\
  mk [("counts", PData "<cirq.run.Counter>")] !! "backend_used" = None.
Proof.
  apply (run_google_result quiet_world (Some 2) (G.gates bell_upper)).
  vm_compute. reflexivity.
Defined.

Lemma google_lower_case_step n st g :
  In (G.gate g) common_kinds ->
  (get (G.target g) = PNone \/ exists x, Cirq.qubit_at n (get (G.target g)) = Ret x) ->
  (get (G.control g) = PNone \/ exists x, Cirq.qubit_at n (get (G.control g)) = Ret x) ->
  Google.build_step n st g = Ret st.
Proof.
  intros Hin Ht Hc. unfold Google.build_step, mbind, res_bind, bind.
  destruct st as [circuit keys].
  assert (exists tq, (if bool_decide (get (G.target g) = PNone) then Ret PNone
                      else Cirq.qubit_at n (get (G.target g))) = Ret tq) as [tq ->].
  { destruct Ht as [-> | [x Hx]]; [by eexists|].
    destruct (bool_decide _); by eexists. }
  assert (exists cq, (if bool_decide (get (G.control g) = PNone) then Ret PNone
                      else Cirq.qubit_at n (get (G.control g))) = Ret cq) as [cq ->].
  { destruct Hc as [-> | [x Hx]]; [by eexists|].
    destruct (bool_decide _); by eexists. }
  simpl in Hin.
  repeat (destruct Hin as [<- | Hin]; [reflexivity|]). done.
Qed.

(** X19: [run_google] compares gate kinds as they are written, in capitals: a
    gate whose kind is spelled in lower case, as the editor's other adapters
    accept it, is skipped, and the run gives what it gives without the
    gate. *)
Theorem run_google_is_case_sensitive
    (w : world) (n : Z) (pre post : list gate_info) (g : gate_info) :
  In (G.gate g) common_kinds ->
  (get (G.target g) = PNone \/ exists x, Cirq.qubit_at n (get (G.target g)) = Ret x) ->
  (get (G.control g) = PNone \/ exists x, Cirq.qubit_at n (get (G.control g)) = Ret x) ->
  Google.run_google w (Some n) (pre ++ g :: post) = Google.run_google w (Some n) (pre ++ post).
Proof.
  intros Hin Ht Hc. unfold Google.run_google.
  rewrite (for_each_skip (Google.build_step n) g pre post); [done|].
  intros st. by apply google_lower_case_step.
Qed.

Lemma run_google_is_case_sensitive_witness :
  Google.run_google quiet_world (Some 1) ([] ++ gate_on "x" 0 :: [gate_on "H" 0])
  = Google.run_google quiet_world (Some 1) ([] ++ [gate_on "H" 0]).
Proof.
  apply (run_google_is_case_sensitive quiet_world 1 [] [gate_on "H" 0] (gate_on "x" 0)).
  - simpl. tauto.
  - right. eexists. reflexivity.
  - left. reflexivity.
Defined.

(** ** Qubit positions on the Cirq adapter *)

(** X20: on the Cirq adapter a gate whose target lies outside [-q .. q-1],
    reached after gates that translate, ends the run in the error result
    "list index out of range", whatever the simulator would do: positions from
    [q] upwards are rejected, and so are those below [-q]. *)
Theorem cirq_target_out_of_range_fails
    (w : world) (q t : Z) (pre post : list gate_info) (g : gate_info) (credentials : dict)
    (circuit : list sdk_call) :
  G.target g = Some (PInt t) ->
  t >= Z.max 0 q \/ t < - Z.max 0 q ->
  Cirq._build_cirq_circuit (G.CircuitData q pre) = Ret circuit ->
  run_cirq w (G.CircuitData q (pre ++ g :: post)) credentials
  = Ret (mk [("error", PStr "list index out of range");
             ("backend_used", PStr "Cirq Local Simulator")]).
Proof.
  intros Ht Hout Hpre.
  assert (Hstep : Cirq.build_step q circuit g = Raise (IndexError "list index out of range")).
  { unfold Cirq.build_step. rewrite Ht. simpl.
    by rewrite (cirq_target_out_of_range q t Hout). }
  unfold run_cirq, Cirq._build_cirq_circuit. simpl.
  unfold Cirq._build_cirq_circuit in Hpre. simpl in Hpre.
  by rewrite (for_each_reach _ g pre post [] circuit _ Hpre Hstep).
Qed.

Lemma cirq_target_out_of_range_fails_witness :
  run_cirq broken_world (G.CircuitData 2 ([gate_on "h" 0] ++ gate_on "x" 2 :: [])) ∅
  = Ret (mk [("error", PStr "list index out of range");
             ("backend_used", PStr "Cirq Local Simulator")]).
Proof.
  apply (cirq_target_out_of_range_fails broken_world 2 2 [gate_on "h" 0] [] (gate_on "x" 2) ∅
           [Call "H" [PInt 0]]).
  - reflexivity.
  - left. vm_compute. discriminate.
  - vm_compute. reflexivity.
Defined.
